(** * build.py: the virtual archive, the project synchronizer and the dev server

    A shallow embedding of [src/build.py].  Python objects that are
    mutated in place ([ZipBuilder], [Project]) become records threaded
    through a state-and-exception monad in which the state survives a
    raised exception, as the attributes of a Python object do.

    Conventions of the model:
    - a Python [str] is a [string] whose characters are read as code
      points below 256;
    - a [pathlib] path is its parsed form (root and components);
    - a [dict] is an association list in insertion order with unique keys;
    - the filesystem and the loaded configuration are inputs. *)

From Stdlib Require Import String Ascii ZArith Lia.
From stdpp Require Import base decidable option list strings pretty.

Local Open Scope string_scope.
Local Open Scope list_scope.
Local Open Scope nat_scope.

(** ** Python strings *)

Module Str.

Definition chr (n : nat) : ascii := ascii_of_nat n.
Definition ord (c : ascii) : nat := nat_of_ascii c.

Definition slash : ascii := chr 47.
Definition newline : string := String (chr 10) "".

(** [sep.join(xs)] *)
Fixpoint join (sep : string) (xs : list string) : string :=
  match xs with
  | [] => ""
  | [x] => x
  | x :: rest => x +:+ sep +:+ join sep rest
  end.

(** [s.split(sep)] for a one-character separator, with an accumulator
    for the component being read (kept reversed). *)
Fixpoint split_go (sep : ascii) (cur : string) (s : string) : list string :=
  match s with
  | EmptyString => [String.rev cur]
  | String c s' =>
      if decide (c = sep) then String.rev cur :: split_go sep "" s'
      else split_go sep (String c cur) s'
  end.

Definition split (sep : ascii) (s : string) : list string := split_go sep "" s.

Definition startswith (p s : string) : bool := String.prefix p s.

Fixpoint endswith_slash (s : string) : bool :=
  match s with
  | EmptyString => false
  | String c EmptyString => bool_decide (c = slash)
  | String _ s' => endswith_slash s'
  end.

(** [s[1:]] *)
Definition tail (s : string) : string :=
  match s with EmptyString => "" | String _ s' => s' end.

Definition hexdigit (n : nat) : ascii :=
  if n <? 10 then chr (48 + n) else chr (87 + n).

(** [len(s.encode("utf-8"))] contribution of one code point below 256,
    and the encoding itself. *)
Definition utf8_char (c : ascii) : list nat :=
  let n := ord c in
  if n <? 128 then [n] else [192 + n / 64; 128 + n mod 64].

Fixpoint encode_utf8 (s : string) : list nat :=
  match s with
  | EmptyString => []
  | String c s' => utf8_char c ++ encode_utf8 s'
  end.

End Str.

(** ** [json.dumps] on a string (default [ensure_ascii=True]) *)

Module Json.

Definition quote : string := String (Str.chr 34) "".
Definition backslash : string := String (Str.chr 92) "".

(** The replacement of one character: the short escapes, the printable
    ASCII characters themselves, and a four-digit hexadecimal escape for
    the rest. *)
Definition escape_char (c : ascii) : string :=
  let n := Str.ord c in
  if n =? 34 then backslash +:+ quote
  else if n =? 92 then backslash +:+ backslash
  else if n =? 10 then backslash +:+ "n"
  else if n =? 13 then backslash +:+ "r"
  else if n =? 9 then backslash +:+ "t"
  else if n =? 8 then backslash +:+ "b"
  else if n =? 12 then backslash +:+ "f"
  else if (32 <=? n) && (n <=? 126) then String c ""
  else backslash +:+ "u00"
       +:+ String (Str.hexdigit (n / 16)) (String (Str.hexdigit (n mod 16)) "").

Fixpoint escape (s : string) : string :=
  match s with
  | EmptyString => ""
  | String c s' => escape_char c +:+ escape s'
  end.

Definition dumps (s : string) : string := quote +:+ escape s +:+ quote.

End Json.

(** ** [pathlib.PurePosixPath]

    A path is kept as [pathlib] parses it: the root (no, one or exactly
    two leading slashes) and the components that are neither empty nor a
    single dot.  Two paths are equal when their string forms are, which on
    parsed paths is equality of root and components. *)

Module Path.

Record t : Type := mk { root : nat; parts : list string }.

#[global] Instance eq_dec : EqDecision t.
Proof. solve_decision. Defined.

Definition keep_part (x : string) : bool :=
  negb (bool_decide (x = "")) && negb (bool_decide (x = ".")).

(** [posixpath.splitroot]: the number of slashes in the root and the rest. *)
Definition splitroot (p : string) : nat * string :=
  match p with
  | String c1 r1 =>
      if decide (c1 = Str.slash) then
        match r1 with
        | String c2 r2 =>
            if decide (c2 = Str.slash) then
              match r2 with
              | String c3 _ => if decide (c3 = Str.slash) then (1, r1) else (2, r2)
              | EmptyString => (2, r2)
              end
            else (1, r1)
        | EmptyString => (1, r1)
        end
      else (0, p)
  | EmptyString => (0, p)
  end.

(** [Path(s)] *)
Definition of_str (s : string) : t :=
  let '(r, rel) := splitroot s in
  mk r (filter (fun x => Is_true (keep_part x)) (Str.split Str.slash rel)).

(** [str(path)] *)
Definition str (p : t) : string :=
  let body := Str.join "/" (parts p) in
  let s := match root p with
           | 0 => body
           | 1 => "/" +:+ body
           | _ => "//" +:+ body
           end in
  if decide (s = "") then "." else s.

Definition is_absolute (p : t) : bool := negb (root p =? 0).

Fixpoint is_prefix (xs ys : list string) : bool :=
  match xs, ys with
  | [], _ => true
  | x :: xs', y :: ys' => bool_decide (x = y) && is_prefix xs' ys'
  | _ :: _, [] => false
  end.

(** [path.is_relative_to(other)]: [other] is the path or one of its parents. *)
Definition is_relative_to (p other : t) : bool :=
  (root p =? root other) && is_prefix (parts other) (parts p).

(** [path.relative_to(other)], used only under [is_relative_to]. *)
Definition relative_to (p other : t) : t :=
  mk 0 (drop (length (parts other)) (parts p)).

End Path.

(** ** Insertion-ordered dictionaries *)

Module Dict.

Section dict.
Context {K V : Type} `{EqDecision K}.

(** [k in d] *)
Fixpoint mem (k : K) (d : list (K * V)) : bool :=
  match d with
  | [] => false
  | (k', _) :: d' => if decide (k = k') then true else mem k d'
  end.

(** [d.get(k)] *)
Fixpoint get (k : K) (d : list (K * V)) : option V :=
  match d with
  | [] => None
  | (k', v) :: d' => if decide (k = k') then Some v else get k d'
  end.

(** [d[k] = v]: an existing key keeps its place, a new key goes last. *)
Fixpoint set (k : K) (v : V) (d : list (K * V)) : list (K * V) :=
  match d with
  | [] => [(k, v)]
  | (k', v') :: d' =>
      if decide (k = k') then (k', v) :: d' else (k', v') :: set k v d'
  end.

(** [del d[k]] on a key that is present. *)
Fixpoint del (k : K) (d : list (K * V)) : list (K * V) :=
  match d with
  | [] => []
  | (k', v') :: d' =>
      if decide (k = k') then d' else (k', v') :: del k d'
  end.

(** Iteration order of [for k in d]. *)
Definition keys (d : list (K * V)) : list K := map fst d.

End dict.

End Dict.

(** ** Exceptions and the state monad of a mutable object *)

Inductive exn : Type :=
| KeyError (key : string)
| ValueError (msg : string)
| OSError (filename : string)
| FileNotFoundError (msg : string)
| UnicodeDecodeError (encoding : string)
| NotImplementedError (msg : string).

#[global] Instance exn_eq_dec : EqDecision exn.
Proof. solve_decision. Defined.

Inductive outcome (A : Type) : Type :=
| Done (a : A)
| Raised (e : exn).

Arguments Done {A} a.
Arguments Raised {A} e.

(** A method of an object with attributes of type [S]: it ends normally or
    raises, and in both cases leaves the attributes as they were last
    written. *)
Definition M (S A : Type) : Type := S -> outcome A * S.

Definition ret {S A} (a : A) : M S A := fun s => (Done a, s).

Definition raise {S A} (e : exn) : M S A := fun s => (Raised e, s).

Definition bind {S A B} (m : M S A) (k : A -> M S B) : M S B :=
  fun s =>
    match m s with
    | (Done a, s') => k a s'
    | (Raised e, s') => (Raised e, s')
    end.

Definition gets {S A} (f : S -> A) : M S A := fun s => (Done (f s), s).

Definition modify {S} (f : S -> S) : M S unit := fun s => (Done tt, f s).

(** Running a method of the attribute reached by [proj]/[upd]. *)
Definition zoom {S T A} (proj : S -> T) (upd : T -> S -> S) (m : M T A) : M S A :=
  fun s => let '(r, t') := m (proj s) in (r, upd t' s).

Definition when_ {S} (b : bool) (m : M S unit) : M S unit :=
  if b then m else ret tt.

(** [for x in xs: body(x)] *)
Fixpoint for_each {S A} (xs : list A) (body : A -> M S unit) : M S unit :=
  match xs with
  | [] => ret tt
  | x :: rest => bind (body x) (fun _ => for_each rest body)
  end.

Declare Scope py_scope.
Delimit Scope py_scope with py.
Notation "x <- m ;; k" := (bind m (fun x => k))
  (at level 100, m at next level, right associativity) : py_scope.
Notation "m ;; k" := (bind m (fun _ => k))
  (at level 100, right associativity) : py_scope.
Local Open Scope py_scope.

(** ** The filesystem, as the program observes it *)

(** What a path names: nothing, a directory, a regular file that opens
    and decodes as UTF-8 text ([File (Some text)]), a regular file that
    cannot be opened ([File None], for instance for lack of permission), or
    a regular file whose bytes are not valid UTF-8. *)
Inductive node : Type :=
| Missing
| Directory
| File (content : option string)
| NotUtf8.

Record filesystem : Type := {
  node_at : Path.t -> node;
  rglob : Path.t -> list Path.t
}.

Definition is_file (fs : filesystem) (p : Path.t) : bool :=
  match node_at fs p with File _ | NotUtf8 => true | _ => false end.

(** [open(p, "r", encoding="utf-8").read()] and [p.read_text("utf-8")] *)
Definition read_text {S} (fs : filesystem) (p : Path.t) : M S string :=
  match node_at fs p with
  | File (Some c) => ret c
  | File None => raise (OSError (Path.str p))
  | Directory => raise (OSError (Path.str p))
  | Missing => raise (FileNotFoundError (Path.str p))
  | NotUtf8 => raise (UnicodeDecodeError "utf-8")
  end.

(** ** [class ZipBuilder] *)

Module ZipBuilder.

Record _FileField : Type := { content : string; path : Path.t }.

Record t : Type := mk {
  files : list (Path.t * _FileField);
  texts : list (Path.t * string)
}.

Definition __init__ : t := mk [] [].

Definition set_files (f : list (Path.t * _FileField)) (z : t) : t := mk f (texts z).
Definition set_texts (x : list (Path.t * string)) (z : t) : t := mk (files z) x.

Definition add_file (fs : filesystem) (file dest : Path.t) : M t unit :=
  in_texts <- gets (fun z => Dict.mem file (texts z)) ;;
  when_ in_texts (modify (fun z => set_texts (Dict.del file (texts z)) z)) ;;
  data <- read_text fs file ;;
  modify (fun z => set_files (Dict.set dest {| content := data; path := file |} (files z)) z).

Definition add_text (text : string) (dest : Path.t) : M t unit :=
  let file := dest in
  in_files <- gets (fun z => Dict.mem file (files z)) ;;
  when_ in_files
    (in_texts <- gets (fun z => Dict.mem file (texts z)) ;;
     if in_texts : bool
     then modify (fun z => set_texts (Dict.del file (texts z)) z)
     else raise (KeyError (Path.str file))) ;;
  modify (fun z => set_texts (Dict.set file text (texts z)) z).

Definition del_entry (p : Path.t) : M t unit :=
  in_files <- gets (fun z => Dict.mem p (files z)) ;;
  when_ in_files (modify (fun z => set_files (Dict.del p (files z)) z)) ;;
  in_texts <- gets (fun z => Dict.mem p (texts z)) ;;
  when_ in_texts (modify (fun z => set_texts (Dict.del p (texts z)) z)).

Definition get (p : Path.t) : M t string :=
  fun z =>
    match Dict.get p (files z) with
    | Some f => (Done (content f), z)
    | None =>
        match Dict.get p (texts z) with
        | Some x => (Done x, z)
        | None => (Raised (FileNotFoundError ("no such file in the ZIP: " +:+ Path.str p)), z)
        end
    end.

Definition has (p : Path.t) (z : t) : bool :=
  Dict.mem p (files z) || Dict.mem p (texts z).

(** [build_zip]: the archive is modelled by the sequence of its members
    (name and content) in the order [writestr] is called; a name that is
    written twice yields two members. *)
Fixpoint write_all (paths : list Path.t) (zipped : list (string * string))
  : M t (list (string * string)) :=
  match paths with
  | [] => ret zipped
  | p :: rest =>
      data <- get p ;;
      write_all rest (zipped ++ [(Path.str p, data)])
  end.

Definition build_zip : M t (list (string * string)) :=
  in_files <- gets (fun z => Dict.keys (files z)) ;;
  zipped <- write_all in_files [] ;;
  in_texts <- gets (fun z => Dict.keys (texts z)) ;;
  write_all in_texts zipped.

Definition member_names (members : list (string * string)) : list string :=
  map fst members.

End ZipBuilder.

(** ** [string.Template.substitute]

    The template is scanned once from the left.  After a dollar sign come
    a second dollar sign (an escaped dollar), an identifier, or an
    identifier in braces; anything else is an invalid placeholder.  The
    first failure met is the one raised. *)

Module Template.

Definition is_id_start (c : ascii) : bool :=
  let n := Str.ord c in
  (n =? 95) || ((97 <=? n) && (n <=? 122)) || ((65 <=? n) && (n <=? 90)).

Definition is_id_char (c : ascii) : bool :=
  let n := Str.ord c in
  is_id_start c || ((48 <=? n) && (n <=? 57)).

Definition dollar : ascii := Str.chr 36.
Definition lbrace : ascii := Str.chr 123.
Definition rbrace : ascii := Str.chr 125.

Inductive mode : Type :=
| Text
| Dollar
| Named (id : string)
| Braced (id : string).

Definition invalid : exn := ValueError "Invalid placeholder in string".

Definition lookup (mapping : list (string * string)) (id : string) : outcome string :=
  match Dict.get id mapping with
  | Some v => Done v
  | None => Raised (KeyError id)
  end.

(** Prefixing what has been produced to the outcome of the rest. *)
Definition emit (pre : string) (r : outcome string) : outcome string :=
  match r with
  | Done x => Done (pre +:+ x)
  | Raised e => Raised e
  end.

Definition and_then (r : outcome string) (k : string -> outcome string) : outcome string :=
  match r with
  | Done x => k x
  | Raised e => Raised e
  end.

Fixpoint scan (mapping : list (string * string)) (st : mode) (tpl : string)
  : outcome string :=
  match tpl with
  | EmptyString =>
      match st with
      | Text => Done ""
      | Dollar => Raised invalid
      | Named id => lookup mapping id
      | Braced _ => Raised invalid
      end
  | String c rest =>
      match st with
      | Text =>
          if decide (c = dollar) then scan mapping Dollar rest
          else emit (String c "") (scan mapping Text rest)
      | Dollar =>
          if decide (c = dollar) then emit (String dollar "") (scan mapping Text rest)
          else if is_id_start c then scan mapping (Named (String c "")) rest
          else if decide (c = lbrace) then scan mapping (Braced "") rest
          else Raised invalid
      | Named id =>
          if is_id_char c then scan mapping (Named (id +:+ String c "")) rest
          else
            and_then (lookup mapping id) (fun v =>
              if decide (c = dollar) then emit v (scan mapping Dollar rest)
              else emit (v +:+ String c "") (scan mapping Text rest))
      | Braced id =>
          if decide (c = rbrace) then
            if decide (id = "") then Raised invalid
            else and_then (lookup mapping id) (fun v => emit v (scan mapping Text rest))
          else if (if decide (id = "") then is_id_start c else is_id_char c)
          then scan mapping (Braced (id +:+ String c "")) rest
          else Raised invalid
      end
  end.

Definition substitute (tpl : string) (mapping : list (string * string)) : outcome string :=
  scan mapping Text tpl.

End Template.

(** Identifiers and what may follow a placeholder, for stating facts about
    templates. *)
Fixpoint all_id_chars (s : string) : bool :=
  match s with
  | EmptyString => true
  | String c s' => Template.is_id_char c && all_id_chars s'
  end.

Definition valid_identifier (s : string) : bool :=
  match s with
  | EmptyString => false
  | String c s' => Template.is_id_start c && all_id_chars s'
  end.

Definition no_id_head (s : string) : Prop :=
  match s with
  | EmptyString => True
  | String c _ => Template.is_id_char c = false
  end.

(** Running a computation that only raises or returns. *)
Definition lift {S A} (r : outcome A) : M S A := fun s => (r, s).

(** ** The loaded configuration and the constants of the module *)

Inductive toml_value : Type :=
| TomlStr (s : string)
| TomlBool (b : bool)
| TomlInt (z : Z).

(** [not v] is [negb (truthy v)]. *)
Definition truthy (v : toml_value) : bool :=
  match v with
  | TomlStr s => negb (bool_decide (s = ""))
  | TomlBool b => b
  | TomlInt z => negb (Z.eqb z 0)
  end.

(** [str(v)] *)
Definition toml_str (v : toml_value) : string :=
  match v with
  | TomlStr s => s
  | TomlBool true => "True"
  | TomlBool false => "False"
  | TomlInt z => pretty z
  end.

(** [table[key]] for a key that may be absent from its table. *)
Definition config_get {S} (key : string) (v : option toml_value) : M S toml_value :=
  match v with
  | Some x => ret x
  | None => raise (KeyError key)
  end.

Definition CDN : string := "https://pyscript.net/releases/$version".
Definition INDEX_TEMPLATE : string := "index.html.template".
Definition INDEX_LOC : string := "index.html".
Definition PYSCRIPT_TOML_CFG_TEMPLATE : string := "pyscript.toml.template".
Definition PYSCRIPT_JSON_CFG_TEMPLATE : string := "pyscript.json.template".

(** ** [class Project] *)

Module Project.

(** What [__init__] computes once and no method writes afterwards: the
    configuration keys the methods read, and the resolved locations.  The
    tables [project] and [runtime] are taken to be present in the
    configuration: a field that is [None] is a key absent from its table. *)
Record env : Type := {
  project_src : string;
  project_main : option toml_value;
  runtime_remote_cdn : option toml_value;
  runtime_pyscript : option toml_value;
  runtime_script_type : option toml_value;
  src_path : Path.t;
  toml_cfg : Path.t;
  json_cfg : Path.t;
  index_template : Path.t
}.

(** The attributes the methods write. *)
Record t : Type := mk {
  zip : ZipBuilder.t;
  files : list Path.t;
  pyscript_config : string
}.

Definition __init__ (z : ZipBuilder.t) : t := mk z [] "".

Definition set_zip (z : ZipBuilder.t) (p : t) : t := mk z (files p) (pyscript_config p).
Definition set_files (l : list Path.t) (p : t) : t := mk (zip p) l (pyscript_config p).
Definition set_pyscript_config (c : string) (p : t) : t := mk (zip p) (files p) c.

Definition on_zip {A} (m : M ZipBuilder.t A) : M t A := zoom zip set_zip m.

Section methods.
Variable self : env.
Variable fs : filesystem.

(** [None] is Python's [None]; every path object is truthy. *)
Definition convert_path (path : Path.t) : option Path.t :=
  if Path.is_absolute path then
    if negb (Path.is_relative_to path (src_path self)) then None
    else Some (Path.relative_to path (src_path self))
  else if Path.is_relative_to path (Path.of_str (project_src self)) then
    Some (Path.relative_to path (Path.of_str (project_src self)))
  else Some path.

Definition file_entry (toml : bool) (pth : Path.t) : string :=
  if toml then Json.dumps (Path.str pth) +:+ " = ''"
  else Json.dumps (Path.str pth) +:+ ": '',".

Definition _gen_file_entry (toml : bool) (tracked : list Path.t) : string :=
  Str.newline +:+ Str.join Str.newline (map (file_entry toml) tracked).

Definition _gen_cfg_replace (toml : bool) (tracked : list Path.t) : list (string * string) :=
  [("files_entry", _gen_file_entry toml tracked)].

Definition _parse_pyscript_cfg : M t string :=
  if is_file fs (toml_cfg self) then
    modify (set_pyscript_config "pyscript.toml") ;;
    tpl <- read_text fs (toml_cfg self) ;;
    tracked <- gets files ;;
    lift (Template.substitute tpl (_gen_cfg_replace true tracked))
  else if is_file fs (json_cfg self) then
    modify (set_pyscript_config "pyscipt.json") ;;
    tpl <- read_text fs (json_cfg self) ;;
    tracked <- gets files ;;
    lift (Template.substitute tpl (_gen_cfg_replace false tracked))
  else raise (ValueError "non-existant pyscript config").

Definition index_mapping (cdn script_type main_script cfg : string) : list (string * string) :=
  [("cdn", cdn); ("script_type", script_type); ("main_script", main_script);
   ("pyscript_config", cfg); ("extra_script_params", "")].

Definition _parse_index_html : M t string :=
  tpl <- read_text fs (index_template self) ;;
  version <- config_get "pyscript" (runtime_pyscript self) ;;
  cdn <- lift (Template.substitute CDN [("version", toml_str version)]) ;;
  script_type <- config_get "script_type" (runtime_script_type self) ;;
  main_script <- config_get "main" (project_main self) ;;
  cfg <- gets pyscript_config ;;
  lift (Template.substitute tpl
          (index_mapping cdn (toml_str script_type) (toml_str main_script) cfg)).

Definition _handle_unknwon (path : Path.t) : M t unit :=
  if bool_decide (path = toml_cfg self) || bool_decide (path = json_cfg self) then
    text <- _parse_pyscript_cfg ;;
    cfg <- gets pyscript_config ;;
    on_zip (ZipBuilder.add_text text (Path.of_str cfg))
  else if bool_decide (path = index_template self) then
    text <- _parse_index_html ;;
    on_zip (ZipBuilder.add_text text (Path.of_str INDEX_LOC))
  else ret tt.

Definition add_file (path : Path.t) : M t unit :=
  match convert_path path with
  | None => _handle_unknwon path
  | Some dest_path =>
      present <- gets (fun p => ZipBuilder.has dest_path (zip p)) ;;
      when_ (negb present)
        (modify (fun p => set_files (files p ++ [dest_path]) p) ;;
         _ <- _parse_pyscript_cfg ;;
         ret tt) ;;
      on_zip (ZipBuilder.add_file fs path dest_path)
  end.

(** [list.remove(x)]: the first occurrence goes; an absent [x] raises. *)
Fixpoint list_remove (x : Path.t) (l : list Path.t) : option (list Path.t) :=
  match l with
  | [] => None
  | y :: l' =>
      if decide (y = x) then Some l'
      else match list_remove x l' with
           | Some r => Some (y :: r)
           | None => None
           end
  end.

Definition del_file (path : Path.t) : M t unit :=
  match convert_path path with
  | None => ret tt
  | Some dest_path =>
      present <- gets (fun p => ZipBuilder.has dest_path (zip p)) ;;
      if negb present then ret tt
      else
        tracked <- gets files ;;
        match list_remove dest_path tracked with
        | None => raise (ValueError "list.remove(x): x not in list")
        | Some tracked' =>
            modify (set_files tracked') ;;
            on_zip (ZipBuilder.del_entry dest_path) ;;
            _ <- _parse_pyscript_cfg ;;
            ret tt
        end
  end.

Definition add_src : M t unit :=
  remote_cdn <- config_get "remote_cdn" (runtime_remote_cdn self) ;;
  if negb (truthy remote_cdn)
  then raise (NotImplementedError "currently only remote cdn is supported")
  else
    for_each (rglob fs (src_path self))
      (fun pth => if negb (is_file fs pth) then ret tt else add_file pth).

Definition add_templates : M t unit :=
  cfg <- gets pyscript_config ;;
  modify (fun p => set_files (files p ++ [Path.of_str cfg; Path.of_str INDEX_LOC]) p) ;;
  manifest <- _parse_pyscript_cfg ;;
  cfg' <- gets pyscript_config ;;
  on_zip (ZipBuilder.add_text manifest (Path.of_str cfg')) ;;
  page <- _parse_index_html ;;
  on_zip (ZipBuilder.add_text page (Path.of_str INDEX_LOC)).

Definition get (path : Path.t) : M t string := on_zip (ZipBuilder.get path).

Definition has (path : Path.t) (p : t) : bool := ZipBuilder.has path (zip p).

End methods.

End Project.

(** ** [posixpath.normpath] and [posixpath.join] *)

Module Posix.

Definition initial_slashes (path : string) : nat :=
  if Str.startswith "/" path then
    if Str.startswith "//" path && negb (Str.startswith "///" path) then 2 else 1
  else 0.

(** The loop over the components; [new_comps] is kept reversed, so that
    its head is the last component kept. *)
Fixpoint norm_comps (slashes : nat) (comps new_comps : list string) : list string :=
  match comps with
  | [] => rev new_comps
  | comp :: rest =>
      if bool_decide (comp = "") || bool_decide (comp = ".") then
        norm_comps slashes rest new_comps
      else if negb (bool_decide (comp = ".."))
              || ((slashes =? 0) && bool_decide (new_comps = []))
              || match new_comps with
                 | last :: _ => bool_decide (last = "..")
                 | [] => false
                 end
      then norm_comps slashes rest (comp :: new_comps)
      else norm_comps slashes rest (List.tl new_comps)
  end.

Definition normpath (path : string) : string :=
  if bool_decide (path = "") then "."
  else
    let slashes := initial_slashes path in
    let body := Str.join "/" (norm_comps slashes (Str.split Str.slash path) []) in
    let res := match slashes with
               | 0 => body
               | 1 => "/" +:+ body
               | _ => "//" +:+ body
               end in
    if bool_decide (res = "") then "." else res.

(** [join(a, b)] with two arguments *)
Definition join (a b : string) : string :=
  if Str.startswith "/" b then b
  else if bool_decide (a = "") || Str.endswith_slash a then a +:+ b
  else a +:+ "/" +:+ b.

End Posix.

(** ** [class ProjectServerHandler] *)

Module ProjectServerHandler.

Definition INDEX_PAGES : list string := ["index.html"; "index.htm"].

Definition NOT_FOUND : nat := 404.
Definition OK : nat := 200.

(** What the handler sends: either the library's [send_error], or a
    status line, the headers in the order sent, and the bytes written. *)
Inductive response : Type :=
| SendError (code : nat) (message : string)
| Sent (status : nat) (headers : list (string * string)) (body : list nat).

Definition parse_path (pth : string) : string :=
  Posix.normpath (if Str.startswith "/" pth then Str.tail pth else pth).

Section handler.
(** [mimetypes.guess_file_type], first component of its result. *)
Variable guess_file_type : string -> option string.

Definition guess_mimetype (path : string) : string :=
  match guess_file_type path with
  | Some guess => if bool_decide (guess = "") then "application/octet-stream;charset=utf-8"
                  else guess +:+ ";charset=utf-8"
  | None => "application/octet-stream;charset=utf-8"
  end.

(** The [for ext in INDEX_PAGES ... else] loop: the first joined path the
    project has, or [None] when the loop ends without [break]. *)
Fixpoint first_index (project : Project.t) (path : string) (exts : list string)
  : option string :=
  match exts with
  | [] => None
  | ext :: rest =>
      let pth := Posix.join path ext in
      if Project.has (Path.of_str pth) project then Some pth
      else first_index project path rest
  end.

Definition serve (project : Project.t) (path : string) (send_content : bool)
  : outcome response :=
  match fst (Project.get (Path.of_str path) project) with
  | Raised e => Raised e
  | Done content =>
      Done (Sent OK
              [("Content-type", guess_mimetype path);
               ("Content-Length", pretty (String.length content))]
              (if send_content then Str.encode_utf8 content else []))
  end.

Definition _do_get (project : option Project.t) (request_path : string)
  (send_content : bool) : outcome response :=
  let path := parse_path request_path in
  match project with
  | None => Done (SendError NOT_FOUND "File not found.")
  | Some prj =>
      if negb (Project.has (Path.of_str path) prj) then
        match first_index prj path INDEX_PAGES with
        | Some pth => serve prj pth send_content
        | None => Done (SendError NOT_FOUND "File not found.")
        end
      else serve prj path send_content
  end.

Definition do_GET (project : option Project.t) (request_path : string) : outcome response :=
  _do_get project request_path true.

Definition do_HEAD (project : option Project.t) (request_path : string) : outcome response :=
  _do_get project request_path false.

End handler.

End ProjectServerHandler.

(** ** Failures of the filesystem *)



(** ** Sequences of calls on a project *)

Inductive call : Type :=
| AddFile (fs : filesystem) (path : Path.t)
| RemoveFile (fs : filesystem) (path : Path.t).

Definition do_call (self : Project.env) (c : call) : M Project.t unit :=
  match c with
  | AddFile fs path => Project.add_file self fs path
  | RemoveFile fs path => Project.del_file self fs path
  end.

(** The calls are made one after the other; the first one that raises
    ends the sequence. *)
Definition run (self : Project.env) (calls : list call) : M Project.t unit :=
  for_each calls (do_call self).

Definition initial : Project.t := Project.__init__ ZipBuilder.__init__.

(** A special input: a template file that [add_file] hands to
    [_handle_unknwon]. *)
Definition is_special (self : Project.env) (path : Path.t) : bool :=
  match Project.convert_path self path with
  | Some _ => false
  | None =>
      bool_decide (path = Project.toml_cfg self)
      || bool_decide (path = Project.json_cfg self)
      || bool_decide (path = Project.index_template self)
  end.

Definition plain_call (self : Project.env) (c : call) : Prop :=
  match c with
  | AddFile _ path => is_special self path = false
  | RemoveFile _ _ => True
  end.

(** The Tracked File List as the specification words it: adding appends a
    destination that is not listed, removing takes it out. *)
Definition spec_step (self : Project.env) (tracked : list Path.t) (c : call) : list Path.t :=
  match c with
  | AddFile _ path =>
      match Project.convert_path self path with
      | Some dest => if bool_decide (dest ∈ tracked) then tracked else tracked ++ [dest]
      | None => tracked
      end
  | RemoveFile _ path =>
      match Project.convert_path self path with
      | Some dest => filter (fun d => d <> dest) tracked
      | None => tracked
      end
  end.

Definition spec_tracked (self : Project.env) (calls : list call) : list Path.t :=
  fold_left (spec_step self) calls [].

(** The state a project keeps while only plain source files are added and
    removed and every call returns: no text entry, and the tracked list is
    the key sequence of the file-backed entries. *)
Definition tracked_ok (s : Project.t) : Prop :=
  ZipBuilder.texts (Project.zip s) = []
  /\ Project.files s = Dict.keys (ZipBuilder.files (Project.zip s))
  /\ NoDup (Project.files s).

(** ** A sample project

    [/proj/config.toml] names [src] as source root and [config] as the
    template directory. *)

Module Sample.

Definition P : string -> Path.t := Path.of_str.

Definition env (remote_cdn : option toml_value) : Project.env := {|
  Project.project_src := "src";
  Project.project_main := Some (TomlStr "main.py");
  Project.runtime_remote_cdn := remote_cdn;
  Project.runtime_pyscript := Some (TomlStr "2024.1.1");
  Project.runtime_script_type := Some (TomlStr "py");
  Project.src_path := P "/proj/src";
  Project.toml_cfg := P "/proj/config/pyscript.toml.template";
  Project.json_cfg := P "/proj/config/pyscript.json.template";
  Project.index_template := P "/proj/config/index.html.template"
|}.

Definition self : Project.env := env (Some (TomlBool true)).

(** A filesystem given by the regular files it holds and the listing of
    the source root. *)
Definition disk (table : list (string * string)) (listing : list string) : filesystem := {|
  node_at := fun p =>
    match Dict.get (Path.str p) table with
    | Some c => File (Some c)
    | None => Missing
    end;
  rglob := fun p => if decide (p = P "/proj/src") then map P listing else []
|}.

Definition index_page : string :=
  "<script src='$cdn/core.js'></script><script type='$script_type' src='$main_script' config='$pyscript_config'$extra_script_params></script>".

Definition sources : list (string * string) :=
  [("/proj/src/main.py", "print(1)"); ("/proj/src/style.css", "body {}")].

Definition toml_templates : list (string * string) :=
  [("/proj/config/pyscript.toml.template", "[files]$files_entry");
   ("/proj/config/index.html.template", index_page)].

Definition json_templates : list (string * string) :=
  [("/proj/config/pyscript.json.template", "{$files_entry}");
   ("/proj/config/index.html.template", index_page)].

Definition fs : filesystem :=
  disk (sources ++ toml_templates) ["/proj/src/main.py"; "/proj/src/style.css"].

(** The same disk after [extra.py] has been created under the source root. *)
Definition fs_extra : filesystem :=
  disk (("/proj/src/extra.py", "x = 2") :: sources ++ toml_templates)
    ["/proj/src/main.py"; "/proj/src/style.css"; "/proj/src/extra.py"].

(** A disk whose source root also holds a file named like the entry page. *)
Definition fs_clash : filesystem :=
  disk (("/proj/src/index.html", "<p>by hand</p>") :: sources ++ toml_templates)
    ["/proj/src/main.py"; "/proj/src/style.css"; "/proj/src/index.html"].

(** A disk whose source root holds a text with one character outside
    ASCII: code point 233, two bytes in UTF-8. *)
Definition menu : string := "caf" +:+ String (Str.chr 233) "".

Definition fs_menu : filesystem :=
  disk (("/proj/src/menu.txt", menu) :: toml_templates) ["/proj/src/menu.txt"].

(** A disk with a file outside the project, named by a relative path. *)
Definition fs_notes : filesystem :=
  disk (("../notes/todo.txt", "later") :: sources ++ toml_templates)
    ["/proj/src/main.py"; "/proj/src/style.css"].

Definition fs_json : filesystem :=
  disk (sources ++ json_templates) ["/proj/src/main.py"; "/proj/src/style.css"].

(** A disk with no manifest template at all. *)
Definition fs_bare : filesystem := disk sources ["/proj/src/main.py"; "/proj/src/style.css"].

(** What [main] does before serving or writing. *)
Definition startup (e : Project.env) (d : filesystem) : M Project.t unit :=
  Project.add_src e d ;; Project.add_templates e d.

Definition started : Project.t := snd (startup self fs initial).

(** Call sequences on the sample: two files added, one removed and added
    again; the entry-page template followed by a source file of the page's
    name; a source file that is not on the disk. *)
Definition churn : list call :=
  [AddFile fs (P "/proj/src/main.py"); AddFile fs (P "/proj/src/style.css");
   RemoveFile fs (P "/proj/src/main.py"); AddFile fs (P "/proj/src/main.py")].

Definition template_then_namesake : list call :=
  [AddFile fs_clash (P "/proj/config/index.html.template");
   AddFile fs_clash (P "/proj/src/index.html")].

Definition ghost : list call := [AddFile fs (P "/proj/src/ghost.py")].

Definition guess_file_type (path : string) : option string :=
  if String.prefix "lmth." (String.rev path) then Some "text/html"
  else if String.prefix "txt." (String.rev path) then Some "text/plain"
  else None.

End Sample.

(** ** The watcher's event handler, [class ProjectUpdater] *)

Module ProjectUpdater.

(** The event classes of the change source that the handlers receive. *)
Inductive event : Type :=
| FileCreatedEvent (src_path : Path.t)
| DirCreatedEvent (src_path : Path.t)
| FileModifiedEvent (src_path : Path.t)
| DirModifiedEvent (src_path : Path.t)
| FileDeletedEvent (src_path : Path.t)
| DirDeletedEvent (src_path : Path.t)
| FileMovedEvent (src_path dest_path : Path.t)
| DirMovedEvent (src_path dest_path : Path.t).

Definition src_path (e : event) : Path.t :=
  match e with
  | FileCreatedEvent p | DirCreatedEvent p
  | FileModifiedEvent p | DirModifiedEvent p
  | FileDeletedEvent p | DirDeletedEvent p
  | FileMovedEvent p _ | DirMovedEvent p _ => p
  end.

(** [event.dest_path]; the events that are not moves carry an empty one. *)
Definition dest_path (e : event) : Path.t :=
  match e with
  | FileMovedEvent _ q | DirMovedEvent _ q => q
  | _ => Path.of_str ""
  end.

Section handlers.
Variable project : Project.env.
Variable fs : filesystem.

Definition on_created (e : event) : M Project.t unit :=
  match e with
  | DirCreatedEvent _ => ret tt
  | _ => Project.add_file project fs (src_path e)
  end.

Definition on_modified (e : event) : M Project.t unit :=
  match e with
  | DirModifiedEvent _ => ret tt
  | _ => Project.add_file project fs (src_path e)
  end.

Definition on_deleted (e : event) : M Project.t unit :=
  match e with
  | DirDeletedEvent _ => ret tt
  | _ => Project.del_file project fs (src_path e)
  end.

Definition on_moved (e : event) : M Project.t unit :=
  match e with
  | DirMovedEvent _ _ => ret tt
  | _ =>
      Project.del_file project fs (src_path e) ;;
      Project.add_file project fs (dest_path e)
  end.

(** The change source calls the handler of the event's kind. *)
Definition dispatch (e : event) : M Project.t unit :=
  match e with
  | FileCreatedEvent _ | DirCreatedEvent _ => on_created e
  | FileModifiedEvent _ | DirModifiedEvent _ => on_modified e
  | FileDeletedEvent _ | DirDeletedEvent _ => on_deleted e
  | FileMovedEvent _ _ | DirMovedEvent _ _ => on_moved e
  end.

End handlers.

End ProjectUpdater.

(** The calls on the project that an event stands for. *)
Definition calls_of_event (fs : filesystem) (e : ProjectUpdater.event) : list call :=
  match e with
  | ProjectUpdater.FileCreatedEvent p | ProjectUpdater.FileModifiedEvent p => [AddFile fs p]
  | ProjectUpdater.FileDeletedEvent p => [RemoveFile fs p]
  | ProjectUpdater.FileMovedEvent p q => [RemoveFile fs p; AddFile fs q]
  | _ => []
  end.

(** ** The first lines of [main]: synchronize, then materialize *)

Definition main_sync (self : Project.env) (fs : filesystem) : M Project.t unit :=
  Project.add_src self fs ;; Project.add_templates self fs.

(** The manifest name [_parse_pyscript_cfg] selects on a disk that has one
    of the two templates. *)
Definition manifest_name (self : Project.env) (fs : filesystem) : string :=
  if is_file fs (Project.toml_cfg self) then "pyscript.toml" else "pyscipt.json".

(** The template file [_parse_pyscript_cfg] reads on a disk that has one
    of the two templates. *)
Definition selected_template (self : Project.env) (fs : filesystem) : Path.t :=
  if is_file fs (Project.toml_cfg self) then Project.toml_cfg self else Project.json_cfg self.

(** The manifest body as the specification words it: every tracked path
    as a quoted string mapped to an empty placeholder value, one per line,
    in list order. *)
Definition spec_manifest_body (toml : bool) (tracked : list Path.t) : string :=
  Str.newline
  +:+ Str.join Str.newline
        (map (fun pth => Json.dumps (Path.str pth) +:+ (if toml then " = ''" else ": '',"))
           tracked).

(** A string between double quotes, for writing expected texts. *)
Definition quoted (s : string) : string := Json.quote +:+ s +:+ Json.quote.

(** ** More sample disks *)

(** A file next to the source root, named through the root with [..]. *)
Definition fs_dotdot : filesystem :=
  Sample.disk (("/proj/src/../secret.txt", "s3cret") :: Sample.sources ++ Sample.toml_templates)
    ["/proj/src/main.py"; "/proj/src/style.css"].



(** ** Vocabulary for the properties below *)

(** The keys of a dictionary are pairwise different. *)
Definition unique_keys {K V : Type} (d : list (K * V)) : Prop := NoDup (Dict.keys d).

Definition well_formed (z : ZipBuilder.t) : Prop :=
  unique_keys (ZipBuilder.files z) /\ unique_keys (ZipBuilder.texts z).

(** How many times a character occurs in a string. *)
Fixpoint count_char (c : ascii) (s : string) : nat :=
  match s with
  | EmptyString => 0
  | String x s' => (if decide (x = c) then 1 else 0) + count_char c s'
  end.

(** Every character is printable ASCII (space to tilde). *)
Fixpoint printable (s : string) : bool :=
  match s with
  | EmptyString => true
  | String x s' => (32 <=? Str.ord x) && (Str.ord x <=? 126) && printable s'
  end.


Definition header (name : string) (r : ProjectServerHandler.response) : option string :=
  match r with
  | ProjectServerHandler.Sent _ headers _ => Dict.get name headers
  | ProjectServerHandler.SendError _ _ => None
  end.

Definition body_of (r : ProjectServerHandler.response) : list nat :=
  match r with
  | ProjectServerHandler.Sent _ _ body => body
  | ProjectServerHandler.SendError _ _ => []
  end.

(** The response with its body taken away. *)
Definition without_body (r : ProjectServerHandler.response) : ProjectServerHandler.response :=
  match r with
  | ProjectServerHandler.Sent status headers _ => ProjectServerHandler.Sent status headers []
  | ProjectServerHandler.SendError code message => ProjectServerHandler.SendError code message
  end.

(** The regular files that [add_src] finds under the source root, in the
    order of the listing. *)
Definition regular_files (self : Project.env) (fs : filesystem) : list Path.t :=
  filter (fun p => Is_true (is_file fs p)) (rglob fs (Project.src_path self)).

(** What [get] answers for a path, with the empty string where it raises. *)
Definition content_of (z : ZipBuilder.t) (p : Path.t) : string :=
  match fst (ZipBuilder.get p z) with
  | Done data => data
  | Raised _ => ""
  end.

(** ** The project while it is served *)

(** The tracked list has no duplicate and holds exactly the paths the
    archive has. *)
Definition in_step (s : Project.t) : Prop :=
  NoDup (Project.files s)
  /\ unique_keys (ZipBuilder.files (Project.zip s))
  /\ forall d, d ∈ Project.files s <-> Project.has d s = true.

(** A call that stays clear of the text entries [texts]: it is not on a
    template file, and neither its path nor its destination is the path of
    one of these entries. *)
Definition clear_of (self : Project.env) (texts : list (Path.t * string)) (c : call) : Prop :=
  match c with
  | AddFile _ p =>
      is_special self p = false
      /\ Dict.mem p texts = false
      /\ match Project.convert_path self p with
         | Some d => Dict.mem d texts = false
         | None => True
         end
  | RemoveFile _ p =>
      match Project.convert_path self p with
      | Some d => Dict.mem d texts = false
      | None => True
      end
  end.

(** The watcher thread: the events are handled one after the other, each
    on the disk as it is when the event arrives. *)
Definition handle_events (self : Project.env)
  (events : list (filesystem * ProjectUpdater.event)) : M Project.t unit :=
  for_each events (fun ev => ProjectUpdater.dispatch self (fst ev) (snd ev)).

Definition calls_of_events (events : list (filesystem * ProjectUpdater.event)) : list call :=
  concat (map (fun ev => calls_of_event (fst ev) (snd ev)) events).

(** The sample disk after [main.py] has been renamed to [app.py]. *)
Definition fs_renamed : filesystem :=
  Sample.disk (("/proj/src/app.py", "print(1)") :: ("/proj/src/style.css", "body {}")
               :: Sample.toml_templates)
    ["/proj/src/app.py"; "/proj/src/style.css"].

Definition sample_events : list (filesystem * ProjectUpdater.event) :=
  [(Sample.fs_extra, ProjectUpdater.FileCreatedEvent (Sample.P "/proj/src/extra.py"));
   (Sample.fs_extra, ProjectUpdater.DirModifiedEvent (Sample.P "/proj/src"));
   (fs_renamed, ProjectUpdater.FileMovedEvent (Sample.P "/proj/src/main.py")
                  (Sample.P "/proj/src/app.py"));
   (fs_renamed, ProjectUpdater.FileDeletedEvent (Sample.P "/proj/src/extra.py"))].

(** * Properties *)

(** ** Dictionaries *)

Section dict_facts.
Context {K V : Type} `{EqDecision K}.
Implicit Types (k : K) (v : V) (d : list (K * V)).

Lemma mem_keys k d : Dict.mem k d = true <-> k ∈ Dict.keys d.
Proof.
  induction d as [|[k' v'] d IH]; simpl.
  - split; [discriminate | intros Hin; inversion Hin].
  - destruct (decide (k = k')) as [->|Hne].
    + split; [intros _; left | reflexivity].
    + rewrite IH. split; [right; assumption|].
      intros Hin. apply elem_of_cons in Hin as [?|?]; [contradiction | assumption].
Qed.

Lemma mem_false_keys k d : Dict.mem k d = false <-> k ∉ Dict.keys d.
Proof.
  rewrite <- mem_keys. destruct (Dict.mem k d); split; congruence.
Qed.

Lemma get_mem k d : Dict.mem k d = true <-> is_Some (Dict.get k d).
Proof.
  induction d as [|[k' v'] d IH]; simpl.
  - split; [discriminate | intros [? ?]; discriminate].
  - destruct (decide (k = k')); [split; eauto | exact IH].
Qed.

Lemma get_none k d : Dict.mem k d = false <-> Dict.get k d = None.
Proof.
  induction d as [|[k' v'] d IH]; simpl; [tauto|].
  destruct (decide (k = k')); [split; discriminate | exact IH].
Qed.

Lemma keys_set k v d :
  Dict.keys (Dict.set k v d) = if Dict.mem k d then Dict.keys d else Dict.keys d ++ [k].
Proof.
  induction d as [|[k' v'] d IH]; simpl; [reflexivity|].
  destruct (decide (k = k')); simpl; [reflexivity|].
  rewrite IH. destruct (Dict.mem k d); reflexivity.
Qed.

Lemma get_set k k' v d :
  Dict.get k' (Dict.set k v d) = if decide (k' = k) then Some v else Dict.get k' d.
Proof.
  induction d as [|[k0 v0] d IH]; simpl.
  - destruct (decide (k' = k)); reflexivity.
  - destruct (decide (k = k0)) as [->|Hne]; simpl.
    + destruct (decide (k' = k0)); reflexivity.
    + rewrite IH. destruct (decide (k' = k0)) as [->|]; [|reflexivity].
      destruct (decide (k0 = k)); [congruence | reflexivity].
Qed.

Lemma get_del_ne k k' d : k' <> k -> Dict.get k' (Dict.del k d) = Dict.get k' d.
Proof.
  intros Hne. induction d as [|[k0 v0] d IH]; simpl; [reflexivity|].
  destruct (decide (k = k0)) as [->|]; simpl.
  - destruct (decide (k' = k0)); [contradiction | reflexivity].
  - rewrite IH. reflexivity.
Qed.

Lemma filter_ne_absent (x : K) (l : list K) :
  x ∉ l -> filter (fun y => y <> x) l = l.
Proof.
  induction l as [|y l IH]; intros Hnot; [reflexivity|].
  apply not_elem_of_cons in Hnot as [Hne Hnot].
  rewrite filter_cons_True by congruence. rewrite IH by assumption. reflexivity.
Qed.

Lemma keys_del_filter k d :
  NoDup (Dict.keys d) -> Dict.keys (Dict.del k d) = filter (fun x => x <> k) (Dict.keys d).
Proof.
  induction d as [|[k0 v0] d IH]; simpl; [reflexivity|].
  intros Hnd. apply NoDup_cons in Hnd as [Hnot Hnd].
  destruct (decide (k = k0)) as [->|Hne].
  - rewrite filter_cons_False by (intros Hk; apply Hk; reflexivity).
    symmetry. apply filter_ne_absent. assumption.
  - rewrite filter_cons_True by congruence. simpl. rewrite IH by assumption. reflexivity.
Qed.

Lemma mem_del_ne k k' d : k' <> k -> Dict.mem k' (Dict.del k d) = Dict.mem k' d.
Proof.
  intros Hne. induction d as [|[k0 v0] d IH]; simpl; [reflexivity|].
  destruct (decide (k = k0)) as [->|]; simpl.
  - destruct (decide (k' = k0)); [contradiction | reflexivity].
  - rewrite IH. reflexivity.
Qed.

End dict_facts.

(** ** The synchronizer on plain source files *)

Ltac unfold_py :=
  unfold Project.on_zip in *;
  unfold bind, gets, modify, when_, ret, raise, lift, zoom in *.

Lemma parse_cfg_frame self fs s :
  Project.zip (snd (Project._parse_pyscript_cfg self fs s)) = Project.zip s
  /\ Project.files (snd (Project._parse_pyscript_cfg self fs s)) = Project.files s.
Proof.
  unfold Project._parse_pyscript_cfg, read_text.
  destruct (is_file fs (Project.toml_cfg self)).
  - unfold_py; simpl.
    destruct (node_at fs (Project.toml_cfg self)) as [| |[c|]|]; simpl; auto.
  - destruct (is_file fs (Project.json_cfg self)).
    + unfold_py; simpl.
      destruct (node_at fs (Project.json_cfg self)) as [| |[c|]|]; simpl; auto.
    + simpl; auto.
Qed.

Lemma list_remove_keys {V} (k : Path.t) (d : list (Path.t * V)) :
  Dict.mem k d = true ->
  Project.list_remove k (Dict.keys d) = Some (Dict.keys (Dict.del k d)).
Proof.
  induction d as [|[k0 v0] d IH]; simpl; [discriminate|].
  destruct (decide (k = k0)) as [->|Hne].
  - intros _. destruct (decide (k0 = k0)); [reflexivity | contradiction].
  - intros Hm. destruct (decide (k0 = k)); [congruence|].
    rewrite IH by assumption. reflexivity.
Qed.

Lemma handle_unknown_plain self fs path s :
  Project.convert_path self path = None ->
  is_special self path = false ->
  Project._handle_unknwon self fs path s = (Done tt, s).
Proof.
  unfold is_special. intros -> Hsp.
  apply orb_false_elim in Hsp as [Hsp Hi]. apply orb_false_elim in Hsp as [Ht Hj].
  unfold Project._handle_unknwon. rewrite Ht, Hj, Hi. reflexivity.
Qed.

Lemma add_file_step self fs path s s' :
  tracked_ok s ->
  is_special self path = false ->
  Project.add_file self fs path s = (Done tt, s') ->
  tracked_ok s' /\ Project.files s' = spec_step self (Project.files s) (AddFile fs path).
Proof.
  intros (Htx & Hfl & Hnd) Hsp Hrun. unfold Project.add_file in Hrun. simpl.
  destruct (Project.convert_path self path) as [dest|] eqn:Hc.
  2:{ rewrite (handle_unknown_plain _ _ _ _ Hc Hsp) in Hrun.
      injection Hrun as <-. repeat split; assumption. }
  unfold_py. unfold ZipBuilder.has in Hrun. rewrite Htx in Hrun. simpl in Hrun.
  rewrite orb_false_r in Hrun.
  destruct (Dict.mem dest (ZipBuilder.files (Project.zip s))) eqn:Hm; simpl in Hrun.
  - (* already present: the list is kept, the content is refreshed *)
    unfold ZipBuilder.add_file, read_text in Hrun. unfold_py. rewrite Htx in Hrun.
    simpl in Hrun.
    destruct (node_at fs path) as [| |[c|]|]; simpl in Hrun; try discriminate.
    injection Hrun as <-. simpl.
    assert (Hin : dest ∈ Project.files s) by (rewrite Hfl; apply mem_keys; assumption).
    rewrite bool_decide_eq_true_2 by assumption.
    repeat split; simpl; try assumption.
    rewrite keys_set, Hm. assumption.
  - pose proof (parse_cfg_frame self fs
      (Project.set_files (Project.files s ++ [dest]) s)) as [Hz Hf].
    destruct (Project._parse_pyscript_cfg self fs
      (Project.set_files (Project.files s ++ [dest]) s)) as [[m|e] s1]; simpl in *;
      [|discriminate].
    unfold ZipBuilder.add_file, read_text in Hrun. unfold_py.
    rewrite Hz, Htx in Hrun. simpl in Hrun.
    destruct (node_at fs path) as [| |[c|]|]; simpl in Hrun; try discriminate.
    injection Hrun as <-. simpl.
    assert (Hnin : dest ∉ Project.files s) by (rewrite Hfl; apply mem_false_keys; assumption).
    rewrite bool_decide_eq_false_2 by assumption.
    repeat split; simpl; try assumption.
    + rewrite keys_set, Hm, Hf, Hfl. reflexivity.
    + rewrite Hf. apply NoDup_app. repeat split; try assumption.
      * intros x Hx Hx'. apply list_elem_of_singleton in Hx'. subst. contradiction.
      * apply NoDup_singleton.
Qed.

Lemma del_file_step self fs path s s' :
  tracked_ok s ->
  Project.del_file self fs path s = (Done tt, s') ->
  tracked_ok s' /\ Project.files s' = spec_step self (Project.files s) (RemoveFile fs path).
Proof.
  intros (Htx & Hfl & Hnd) Hrun. unfold Project.del_file in Hrun. simpl.
  destruct (Project.convert_path self path) as [dest|] eqn:Hc.
  2:{ injection Hrun as <-. repeat split; assumption. }
  unfold_py. unfold ZipBuilder.has in Hrun. rewrite Htx in Hrun. simpl in Hrun.
  rewrite orb_false_r in Hrun.
  destruct (Dict.mem dest (ZipBuilder.files (Project.zip s))) eqn:Hm; simpl in Hrun.
  - rewrite Hfl in Hrun. rewrite (list_remove_keys _ _ Hm) in Hrun.
    unfold ZipBuilder.del_entry in Hrun. unfold_py. simpl in Hrun.
    rewrite Hm in Hrun. simpl in Hrun. rewrite Htx in Hrun. simpl in Hrun.
    match type of Hrun with context [Project._parse_pyscript_cfg self fs ?st] =>
      pose proof (parse_cfg_frame self fs st) as [Hz Hf];
      destruct (Project._parse_pyscript_cfg self fs st) as [[m|e] s1] end;
      simpl in *; [|discriminate].
    injection Hrun as <-.
    assert (Hk : Dict.keys (Dict.del dest (ZipBuilder.files (Project.zip s)))
                 = filter (fun d => d <> dest) (Project.files s)).
    { rewrite Hfl. apply keys_del_filter. rewrite <- Hfl. assumption. }
    unfold tracked_ok. rewrite Hz, Hf. simpl. rewrite Hk.
    repeat split; try assumption.
    apply NoDup_filter. assumption.
  - injection Hrun as <-.
    assert (Hnin : dest ∉ Project.files s) by (rewrite Hfl; apply mem_false_keys; assumption).
    rewrite filter_ne_absent by assumption.
    repeat split; assumption.
Qed.

Lemma run_plain self calls : forall s s',
  Forall (plain_call self) calls ->
  tracked_ok s ->
  run self calls s = (Done tt, s') ->
  tracked_ok s' /\ Project.files s' = fold_left (spec_step self) calls (Project.files s).
Proof.
  induction calls as [|c calls IH]; intros s s' Hplain Hok Hrun.
  - injection Hrun as <-. split; [assumption | reflexivity].
  - apply Forall_cons in Hplain as [Hc Hplain].
    unfold run in Hrun. simpl in Hrun. unfold bind in Hrun.
    destruct (do_call self c s) as [[[]|e] s1] eqn:Hstep; [|discriminate].
    assert (Hs1 : tracked_ok s1 /\ Project.files s1 = spec_step self (Project.files s) c).
    { destruct c as [fs path|fs path]; simpl in Hstep.
      - eapply add_file_step; eassumption.
      - eapply del_file_step; eassumption. }
    destruct Hs1 as [Hok1 Hf1].
    destruct (IH s1 s' Hplain Hok1 Hrun) as [Hok' Hf'].
    split; [assumption|]. simpl. rewrite <- Hf1. assumption.
Qed.

Lemma initial_ok : tracked_ok initial.
Proof. repeat split; simpl; constructor. Qed.

Lemma files_mem_of_ok s d :
  tracked_ok s ->
  d ∈ Project.files s <-> Dict.mem d (ZipBuilder.files (Project.zip s)) = true.
Proof. intros (_ & Hfl & _). rewrite Hfl. symmetry. apply mem_keys. Qed.

Lemma spec_readd_last self pre fs1 fs2 path dest :
  Project.convert_path self path = Some dest ->
  spec_tracked self (pre ++ [RemoveFile fs1 path; AddFile fs2 path])
  = filter (fun d => d <> dest) (spec_tracked self pre) ++ [dest].
Proof.
  intros Hc. unfold spec_tracked. rewrite fold_left_app. simpl. rewrite Hc.
  rewrite bool_decide_eq_false_2; [reflexivity|].
  intros Hin. apply list_elem_of_filter in Hin as [Hne _]. apply Hne. reflexivity.
Qed.

(** C4, as amended: over calls on plain source paths that all return,
    starting from the initial project, the tracked list has no duplicate,
    is the key sequence of the file-backed entries (so a path is listed
    exactly when it has such an entry), equals the list the specification
    describes (first additions in order), and a path removed and added
    again is last. *)
Theorem tracked_list_of_plain_calls self calls s :
  Forall (plain_call self) calls ->
  run self calls initial = (Done tt, s) ->
  NoDup (Project.files s)
  /\ Project.files s = Dict.keys (ZipBuilder.files (Project.zip s))
  /\ (forall d, d ∈ Project.files s <-> Dict.mem d (ZipBuilder.files (Project.zip s)) = true)
  /\ Project.files s = spec_tracked self calls
  /\ (forall pre fs1 fs2 path dest,
        calls = pre ++ [RemoveFile fs1 path; AddFile fs2 path] ->
        Project.convert_path self path = Some dest ->
        Project.files s = filter (fun d => d <> dest) (spec_tracked self pre) ++ [dest]).
Proof.
  intros Hplain Hrun.
  destruct (run_plain self calls initial s Hplain initial_ok Hrun) as [Hok Hspec].
  pose proof Hok as (_ & Hfl & Hnd).
  repeat split; try assumption.
  - apply files_mem_of_ok; assumption.
  - apply files_mem_of_ok; assumption.
  - intros pre fs1 fs2 path dest -> Hc. rewrite Hspec.
    apply (spec_readd_last self pre fs1 fs2 path dest Hc).
Qed.

(** ** The tracked list on the sample *)

Section tracked_on_sample.
Import Sample.

Lemma tracked_list_of_plain_calls_witness :
  NoDup (Project.files (snd (run self churn initial)))
  /\ Project.files (snd (run self churn initial))
     = Dict.keys (ZipBuilder.files (Project.zip (snd (run self churn initial))))
  /\ (forall d, d ∈ Project.files (snd (run self churn initial))
        <-> Dict.mem d (ZipBuilder.files (Project.zip (snd (run self churn initial)))) = true)
  /\ Project.files (snd (run self churn initial)) = spec_tracked self churn
  /\ (forall pre fs1 fs2 path dest,
        churn = pre ++ [RemoveFile fs1 path; AddFile fs2 path] ->
        Project.convert_path self path = Some dest ->
        Project.files (snd (run self churn initial))
        = filter (fun d => d <> dest) (spec_tracked self pre) ++ [dest]).
Proof.
  apply (tracked_list_of_plain_calls self churn (snd (run self churn initial))).
  - repeat constructor.
  - vm_compute. reflexivity.
Defined.

(** C4, counterexample: (1) every call returns, the first one on the
    entry-page template: the source file [index.html] then has a
    file-backed entry and is not in the tracked list; (2) a call on a plain
    path raises because the file is missing: the path is in the tracked
    list and has no entry. *)
Lemma tracked_list_departs_from_entries :
  (fst (run self template_then_namesake initial) = Done tt
   /\ Dict.mem (P "index.html")
        (ZipBuilder.files (Project.zip (snd (run self template_then_namesake initial)))) = true
   /\ P "index.html" ∉ Project.files (snd (run self template_then_namesake initial)))
  /\ (Forall (plain_call self) ghost
      /\ fst (run self ghost initial) = Raised (FileNotFoundError "/proj/src/ghost.py")
      /\ P "ghost.py" ∈ Project.files (snd (run self ghost initial))
      /\ Dict.mem (P "ghost.py")
           (ZipBuilder.files (Project.zip (snd (run self ghost initial)))) = false).
Proof.
  split.
  - split; [vm_compute; reflexivity|]. split; [vm_compute; reflexivity|].
    vm_compute. intros Hin. inversion Hin.
  - split; [repeat constructor|]. split; [vm_compute; reflexivity|].
    split; [vm_compute; left | vm_compute; reflexivity].
Qed.

End tracked_on_sample.

(** ** The archive manifest after a mutation *)

Section claims_on_sample.
Import Sample.

(** C1 (the code departs from it): after the initial synchronization,
    adding [extra.py] extends the tracked list, and removing [main.py]
    shortens it, yet the manifest stored in the archive is the one written
    at startup; regenerating it at that moment gives a different text. *)
Theorem archive_manifest_stale_after_mutation :
  let added := Project.add_file self fs_extra (P "/proj/src/extra.py") started in
  let removed := Project.del_file self fs (P "/proj/src/main.py") started in
  fst added = Done tt
  /\ Project.files (snd added)
     = map P ["main.py"; "style.css"; "pyscript.toml"; "index.html"; "extra.py"]
  /\ Project.get (P "pyscript.toml") (snd added)
     = (fst (Project.get (P "pyscript.toml") started), snd added)
  /\ fst (Project._parse_pyscript_cfg self fs_extra (snd added))
     <> fst (Project.get (P "pyscript.toml") (snd added))
  /\ fst removed = Done tt
  /\ Project.files (snd removed) = map P ["style.css"; "pyscript.toml"; "index.html"]
  /\ Project.get (P "pyscript.toml") (snd removed)
     = (fst (Project.get (P "pyscript.toml") started), snd removed)
  /\ fst (Project._parse_pyscript_cfg self fs (snd removed))
     <> fst (Project.get (P "pyscript.toml") (snd removed)).
Proof.
  vm_compute. repeat split; try reflexivity; discriminate.
Qed.

End claims_on_sample.

(** Beyond the sample: on a plain source path [add_file] writes no text
    entry at all, so whatever manifest the archive holds stays as it was. *)
Lemma add_file_plain_texts self fs path dest s k :
  Project.convert_path self path = Some dest ->
  k <> path ->
  Dict.get k (ZipBuilder.texts (Project.zip (snd (Project.add_file self fs path s))))
  = Dict.get k (ZipBuilder.texts (Project.zip s)).
Proof.
  intros Hc Hk. unfold Project.add_file. rewrite Hc. unfold_py.
  assert (Hzip : forall z,
    Dict.get k (ZipBuilder.texts (snd (ZipBuilder.add_file fs path dest z)))
    = Dict.get k (ZipBuilder.texts z)).
  { intros z. unfold ZipBuilder.add_file, read_text. unfold_py.
    destruct (Dict.mem path (ZipBuilder.texts z)); simpl;
      destruct (node_at fs path) as [| |[c|]|]; simpl;
      rewrite ?get_del_ne by assumption; reflexivity. }
  destruct (negb (ZipBuilder.has dest (Project.zip s))); simpl.
  - pose proof (parse_cfg_frame self fs
      (Project.set_files (Project.files s ++ [dest]) s)) as [Hz _].
    destruct (Project._parse_pyscript_cfg self fs
      (Project.set_files (Project.files s ++ [dest]) s)) as [[m|e] s1]; simpl in *.
    + specialize (Hzip (Project.zip s1)).
      destruct (ZipBuilder.add_file fs path dest (Project.zip s1)) as [r z']; simpl in *.
      rewrite Hzip, Hz. reflexivity.
    + rewrite Hz. reflexivity.
  - specialize (Hzip (Project.zip s)).
    destruct (ZipBuilder.add_file fs path dest (Project.zip s)) as [r z']; simpl in *.
    assumption.
Qed.

(** ** File-backed and text entries under one path *)

Section exclusion_on_sample.
Import Sample.

(** C3 (the code departs from it): [add_file] looks for a text entry under
    the source path, not under the destination, and [add_text] deletes from
    the text entries when the path is among the files.  So a text entry
    survives a later [add_file] on its path; [add_text] on a path that
    holds only a file raises [KeyError]; and where it returns, the file
    entry stays and [get] still answers with the file. *)
Theorem file_and_text_entries_coexist :
  let a := P "a.txt" in
  let src := P "/proj/src/main.py" in
  let text_then_file :=
    (ZipBuilder.add_text "generated" a ;; ZipBuilder.add_file fs src a) ZipBuilder.__init__ in
  let file_then_text :=
    (ZipBuilder.add_file fs src a ;; ZipBuilder.add_text "generated" a) ZipBuilder.__init__ in
  let text_last :=
    (ZipBuilder.add_text "old" a ;; ZipBuilder.add_file fs src a ;;
     ZipBuilder.add_text "generated" a) ZipBuilder.__init__ in
  fst text_then_file = Done tt
  /\ Dict.mem a (ZipBuilder.files (snd text_then_file)) = true
  /\ Dict.mem a (ZipBuilder.texts (snd text_then_file)) = true
  /\ fst file_then_text = Raised (KeyError "a.txt")
  /\ fst (ZipBuilder.get a (snd file_then_text)) = Done "print(1)"
  /\ fst text_last = Done tt
  /\ Dict.mem a (ZipBuilder.files (snd text_last)) = true
  /\ Dict.get a (ZipBuilder.texts (snd text_last)) = Some "generated"
  /\ fst (ZipBuilder.get a (snd text_last)) = Done "print(1)".
Proof.
  vm_compute. repeat split; reflexivity.
Qed.

End exclusion_on_sample.

(** In general [add_text] never removes or replaces a file-backed entry,
    and [get] keeps answering with it. *)
Lemma add_text_keeps_file_entry text dest z p :
  Dict.get p (ZipBuilder.files (snd (ZipBuilder.add_text text dest z)))
  = Dict.get p (ZipBuilder.files z).
Proof.
  unfold ZipBuilder.add_text. unfold_py.
  destruct (Dict.mem dest (ZipBuilder.files z)); simpl; [|reflexivity].
  destruct (Dict.mem dest (ZipBuilder.texts z)); reflexivity.
Qed.

(** ** Serialization *)

Lemma get_of_has p z :
  ZipBuilder.has p z = true -> exists data, ZipBuilder.get p z = (Done data, z).
Proof.
  unfold ZipBuilder.has, ZipBuilder.get. intros Hhas.
  destruct (Dict.get p (ZipBuilder.files z)) as [f|] eqn:Hf; [eauto|].
  apply get_none in Hf. rewrite Hf in Hhas. simpl in Hhas.
  apply get_mem in Hhas as [x Hx]. rewrite Hx. eauto.
Qed.

Lemma write_all_names z paths : forall zipped,
  Forall (fun p => ZipBuilder.has p z = true) paths ->
  exists members,
    ZipBuilder.write_all paths zipped z = (Done members, z)
    /\ ZipBuilder.member_names members
       = ZipBuilder.member_names zipped ++ map Path.str paths.
Proof.
  induction paths as [|p paths IH]; intros zipped Hall; simpl.
  - exists zipped. rewrite app_nil_r. split; reflexivity.
  - apply Forall_cons in Hall as [Hp Hall].
    destruct (get_of_has p z Hp) as [data Hget].
    unfold bind. rewrite Hget.
    destruct (IH (zipped ++ [(Path.str p, data)]) Hall) as (members & Hw & Hn).
    exists members. split; [assumption|].
    rewrite Hn. unfold ZipBuilder.member_names. rewrite map_app. simpl.
    rewrite <- app_assoc. reflexivity.
Qed.

(** [build_zip] always returns, leaves the archive as it is, and writes
    one member per file-backed entry followed by one per text entry. *)
Lemma build_zip_members z :
  exists members,
    ZipBuilder.build_zip z = (Done members, z)
    /\ ZipBuilder.member_names members
       = map Path.str (Dict.keys (ZipBuilder.files z) ++ Dict.keys (ZipBuilder.texts z)).
Proof.
  unfold ZipBuilder.build_zip. unfold_py.
  destruct (write_all_names z (Dict.keys (ZipBuilder.files z)) []) as (m1 & H1 & N1).
  { apply Forall_forall. intros p Hp. apply mem_keys in Hp.
    unfold ZipBuilder.has. rewrite Hp. reflexivity. }
  rewrite H1.
  destruct (write_all_names z (Dict.keys (ZipBuilder.texts z)) m1) as (m2 & H2 & N2).
  { apply Forall_forall. intros p Hp. apply mem_keys in Hp.
    unfold ZipBuilder.has. rewrite Hp. apply orb_true_r. }
  exists m2. split; [assumption|].
  rewrite N2, N1, map_app. reflexivity.
Qed.

Section serialization_on_sample.
Import Sample.

(** C6 (the code departs from it): while the dev project runs, a file
    [index.html] is created under the source root.  The archive then holds
    it as a file-backed entry next to the generated text entry of the same
    path, and [build_zip] writes the name twice. *)
Theorem build_zip_writes_a_name_twice :
  let s := snd (Project.add_file self fs_clash (P "/proj/src/index.html") started) in
  fst (Project.add_file self fs_clash (P "/proj/src/index.html") started) = Done tt
  /\ (exists members,
        fst (ZipBuilder.build_zip (Project.zip s)) = Done members
        /\ ZipBuilder.member_names members
           = ["main.py"; "style.css"; "index.html"; "pyscript.toml"; "index.html"]
        /\ ~ NoDup (ZipBuilder.member_names members)).
Proof.
  split; [vm_compute; reflexivity|].
  eexists. split; [vm_compute; reflexivity|]. split; [vm_compute; reflexivity|].
  intros Hnd. apply NoDup_cons in Hnd as [_ Hnd]. apply NoDup_cons in Hnd as [_ Hnd].
  apply NoDup_cons in Hnd as [Hnot _]. apply Hnot.
  vm_compute. right. left.
Qed.

End serialization_on_sample.

(** ** The dev server *)


Section server_on_sample.
Import Sample.

(** C7 (the code departs from it): the project holds [menu.txt], four
    characters of which the last takes two bytes in UTF-8.  The GET
    response announces a Content-Length of 4 and carries 5 bytes; the HEAD
    response has the same headers and no body. *)
Theorem content_length_counts_characters :
  let synced := Project.add_file self fs_menu (P "/proj/src/menu.txt") initial in
  let project := Some (snd synced) in
  fst synced = Done tt
  /\ ProjectServerHandler.do_GET guess_file_type project "/menu.txt"
     = Done (ProjectServerHandler.Sent ProjectServerHandler.OK
               [("Content-type", "text/plain;charset=utf-8"); ("Content-Length", "4")]
               [99; 97; 102; 195; 169])
  /\ length [99; 97; 102; 195; 169] = 5
  /\ ProjectServerHandler.do_HEAD guess_file_type project "/menu.txt"
     = Done (ProjectServerHandler.Sent ProjectServerHandler.OK
               [("Content-type", "text/plain;charset=utf-8"); ("Content-Length", "4")]
               []).
Proof.
  vm_compute. repeat split; reflexivity.
Qed.

End server_on_sample.

(** ** The initial synchronization *)

Section add_src_on_sample.
Import Sample.

(** C8, counterexample: with [runtime.remote_cdn] absent from the
    configuration, [add_src] raises [KeyError], which is not the
    unimplemented-configuration error. *)
Lemma absent_remote_cdn_is_a_key_error :
  Project.add_src (env None) fs initial = (Raised (KeyError "remote_cdn"), initial)
  /\ forall msg, fst (Project.add_src (env None) fs initial) <> Raised (NotImplementedError msg).
Proof.
  split; [reflexivity | intros msg; discriminate].
Qed.

End add_src_on_sample.

(** C8, as amended: when [runtime.remote_cdn] is absent or false
    [add_src] raises before it lists the source root and leaves the project
    as it was; the error is the unimplemented-configuration one for
    [false] and a [KeyError] for an absent key. *)
Theorem add_src_refuses_before_sync self fs s :
  Project.runtime_remote_cdn self = None
  \/ Project.runtime_remote_cdn self = Some (TomlBool false) ->
  Project.add_src self fs s
  = (Raised (match Project.runtime_remote_cdn self with
             | None => KeyError "remote_cdn"
             | Some _ => NotImplementedError "currently only remote cdn is supported"
             end), s).
Proof.
  intros [H|H]; unfold Project.add_src; rewrite H; reflexivity.
Qed.

Lemma add_src_refuses_before_sync_witness :
  Project.add_src (Sample.env (Some (TomlBool false))) Sample.fs Sample.started
  = (Raised (NotImplementedError "currently only remote cdn is supported"), Sample.started).
Proof.
  apply (add_src_refuses_before_sync (Sample.env (Some (TomlBool false))) Sample.fs Sample.started).
  right. reflexivity.
Defined.

(** ** Paths outside the source root *)

Section outside_on_sample.
Import Sample.

(** C5, counterexample: (1) a relative path that is not under the source
    directory is taken as its own destination, tracked and archived;
    (2) so is an absolute path that leaves the source root through [..]:
    the root is a component-wise prefix of it, and the destination
    [../secret.txt] is tracked and archived. *)
Lemma paths_outside_root_are_tracked :
  (let p := P "../notes/todo.txt" in
   Path.is_absolute p = false
   /\ Path.is_relative_to p (Path.of_str (Project.project_src self)) = false
   /\ p <> Project.toml_cfg self /\ p <> Project.json_cfg self
   /\ p <> Project.index_template self
   /\ fst (Project.add_file self fs_notes p initial) = Done tt
   /\ Project.files (snd (Project.add_file self fs_notes p initial)) = [p]
   /\ Project.has p (snd (Project.add_file self fs_notes p initial)) = true)
  /\ (let p := P "/proj/src/../secret.txt" in
      Path.is_absolute p = true
      /\ Posix.normpath (Path.str p) = "/proj/secret.txt"
      /\ p <> Project.toml_cfg self /\ p <> Project.json_cfg self
      /\ p <> Project.index_template self
      /\ fst (Project.add_file self fs_dotdot p initial) = Done tt
      /\ Project.files (snd (Project.add_file self fs_dotdot p initial)) = [P "../secret.txt"]
      /\ Project.has (P "../secret.txt") (snd (Project.add_file self fs_dotdot p initial))
         = true).
Proof.
  vm_compute. repeat split; try reflexivity; discriminate.
Qed.

End outside_on_sample.

(** C5, as amended: an absolute path of which the resolved source root is
    not a component-wise prefix ([is_relative_to], which resolves no [..])
    and that is none of the three template files is ignored by [add_file]:
    the call returns and the project (tracked list and archive) is
    unchanged. *)
Theorem absolute_path_outside_root_ignored self fs path s :
  Path.is_absolute path = true ->
  Path.is_relative_to path (Project.src_path self) = false ->
  path <> Project.toml_cfg self ->
  path <> Project.json_cfg self ->
  path <> Project.index_template self ->
  Project.convert_path self path = None
  /\ Project.add_file self fs path s = (Done tt, s).
Proof.
  intros Habs Hrel Ht Hj Hi.
  assert (Hc : Project.convert_path self path = None).
  { unfold Project.convert_path. rewrite Habs, Hrel. reflexivity. }
  split; [assumption|].
  unfold Project.add_file. rewrite Hc.
  apply handle_unknown_plain; [assumption|].
  unfold is_special. rewrite Hc.
  rewrite !bool_decide_eq_false_2 by assumption. reflexivity.
Qed.

Lemma absolute_path_outside_root_ignored_witness :
  Project.convert_path Sample.self (Sample.P "/tmp/scratch.txt") = None
  /\ Project.add_file Sample.self Sample.fs (Sample.P "/tmp/scratch.txt") Sample.started
     = (Done tt, Sample.started).
Proof.
  apply (absolute_path_outside_root_ignored Sample.self Sample.fs
           (Sample.P "/tmp/scratch.txt") Sample.started);
    solve [reflexivity | discriminate].
Defined.

(** ** Materializing the templates *)

(** What a successful regeneration of the manifest leaves and returns. *)
Lemma parse_cfg_done self fs s m s1 :
  Project._parse_pyscript_cfg self fs s = (Done m, s1) ->
  s1 = Project.set_pyscript_config (Project.pyscript_config s1) s
  /\ exists tpl toml,
       Template.substitute tpl (Project._gen_cfg_replace toml (Project.files s)) = Done m
       /\ Project.pyscript_config s1 = (if toml : bool then "pyscript.toml" else "pyscipt.json").
Proof.
  unfold Project._parse_pyscript_cfg, read_text.
  destruct (is_file fs (Project.toml_cfg self)).
  - unfold_py; simpl.
    destruct (node_at fs (Project.toml_cfg self)) as [| |[c|]|]; simpl; try discriminate.
    intros H. injection H as Hm <-. split; [reflexivity|]. exists c, true. auto.
  - destruct (is_file fs (Project.json_cfg self)); [|discriminate].
    unfold_py; simpl.
    destruct (node_at fs (Project.json_cfg self)) as [| |[c|]|]; simpl; try discriminate.
    intros H. injection H as Hm <-. split; [reflexivity|]. exists c, false. auto.
Qed.

(** [_parse_index_html] only reads. *)
Lemma parse_index_frame self fs s : snd (Project._parse_index_html self fs s) = s.
Proof.
  unfold Project._parse_index_html, read_text, config_get. unfold_py.
  destruct (node_at fs (Project.index_template self)) as [| |[c|]|]; simpl; try reflexivity.
  destruct (Project.runtime_pyscript self) as [t|]; simpl; [|reflexivity].
  destruct (Project.runtime_script_type self); simpl; [|reflexivity].
  destruct (Project.project_main self); reflexivity.
Qed.

(** What a successful [add_text] leaves. *)
Lemma add_text_done text dest z z' :
  ZipBuilder.add_text text dest z = (Done tt, z') ->
  ZipBuilder.files z' = ZipBuilder.files z
  /\ Dict.get dest (ZipBuilder.texts z') = Some text
  /\ forall k, k <> dest -> Dict.get k (ZipBuilder.texts z') = Dict.get k (ZipBuilder.texts z).
Proof.
  unfold ZipBuilder.add_text. unfold_py.
  destruct (Dict.mem dest (ZipBuilder.files z)); simpl.
  - destruct (Dict.mem dest (ZipBuilder.texts z)); simpl; [|discriminate].
    intros H. injection H as <-. simpl. repeat split.
    + rewrite get_set. destruct (decide (dest = dest)); [reflexivity | contradiction].
    + intros k Hk. rewrite get_set. destruct (decide (k = dest)); [contradiction|].
      apply get_del_ne. assumption.
  - intros H. injection H as <-. simpl. repeat split.
    + rewrite get_set. destruct (decide (dest = dest)); [reflexivity | contradiction].
    + intros k Hk. rewrite get_set. destruct (decide (k = dest)); [contradiction|].
      reflexivity.
Qed.

Section templates_on_sample.
Import Sample.

(** C2, counterexample: after the startup sequence of [main] both derived
    paths are in the tracked list, and the manifest in the archive lists
    them. *)
Lemma startup_tracks_derived_paths :
  fst (startup self fs initial) = Done tt
  /\ P INDEX_LOC ∈ Project.files started
  /\ P "pyscript.toml" ∈ Project.files started
  /\ fst (Project.get (P "pyscript.toml") started)
     = Done ("[files]" +:+ Str.newline
             +:+ quoted "main.py" +:+ " = ''" +:+ Str.newline
             +:+ quoted "style.css" +:+ " = ''" +:+ Str.newline
             +:+ quoted "pyscript.toml" +:+ " = ''" +:+ Str.newline
             +:+ quoted "index.html" +:+ " = ''").
Proof.
  split; [vm_compute; reflexivity|].
  split; [vm_compute; do 3 right; left|].
  split; [vm_compute; do 2 right; left|].
  vm_compute; reflexivity.
Qed.

End templates_on_sample.

(** ** Template substitution *)

Lemma str_app_cons (c : ascii) (s t : string) : String c s +:+ t = String c (s +:+ t).
Proof. reflexivity. Qed.

Lemma str_app_nil_l (s : string) : "" +:+ s = s.
Proof. reflexivity. Qed.

Lemma str_app_nil_r (s : string) : s +:+ "" = s.
Proof.
  induction s as [|c s IH]; [reflexivity|].
  rewrite str_app_cons, IH. reflexivity.
Qed.

Lemma str_app_assoc (a b c : string) : (a +:+ b) +:+ c = a +:+ (b +:+ c).
Proof.
  induction a as [|x a IH]; [reflexivity|].
  rewrite !str_app_cons, IH. reflexivity.
Qed.

Section template_facts.
Variable mapping : list (string * string).

Lemma emit_empty r : Template.emit "" r = r.
Proof. destruct r; reflexivity. Qed.

Lemma emit_emit a b r : Template.emit a (Template.emit b r) = Template.emit (a +:+ b) r.
Proof. destruct r; simpl; [rewrite str_app_assoc|]; reflexivity. Qed.

Lemma emit_done_inv a r x :
  Template.emit a r = Done x -> exists y, r = Done y /\ x = a +:+ y.
Proof. destruct r; simpl; [|discriminate]. intros H. injection H as <-. eauto. Qed.

Lemma id_start_not_dollar c : Template.is_id_start c = true -> c <> Template.dollar.
Proof. intros H ->. discriminate. Qed.

(** A template that substitutes well, followed by a dollar sign: what the
    prefix produced is kept, and the scan goes on after the dollar. *)
Lemma scan_app_dollar pre : forall st x rest,
  Template.scan mapping st pre = Done x ->
  Template.scan mapping st (pre +:+ String Template.dollar rest)
  = Template.emit x (Template.scan mapping Template.Dollar rest).
Proof.
  induction pre as [|c pre IH]; intros st x rest Hpre;
    rewrite ?str_app_nil_l, ?str_app_cons.
  - destruct st as [| |id|id]; simpl in Hpre; try discriminate.
    + injection Hpre as <-. simpl. rewrite emit_empty. reflexivity.
    + simpl. rewrite Hpre. simpl. reflexivity.
  - destruct st as [| |id|id]; simpl in Hpre |- *.
    + destruct (decide (c = Template.dollar)); [apply IH; assumption|].
      apply emit_done_inv in Hpre as (y & Hy & ->).
      rewrite (IH _ _ rest Hy), emit_emit. reflexivity.
    + destruct (decide (c = Template.dollar)).
      * apply emit_done_inv in Hpre as (y & Hy & ->).
        rewrite (IH _ _ rest Hy), emit_emit. reflexivity.
      * destruct (Template.is_id_start c); [apply IH; assumption|].
        destruct (decide (c = Template.lbrace)); [apply IH; assumption | discriminate].
    + destruct (Template.is_id_char c); [apply IH; assumption|].
      destruct (Template.lookup mapping id) as [v|err]; simpl in Hpre |- *; [|discriminate].
      destruct (decide (c = Template.dollar));
        apply emit_done_inv in Hpre as (y & Hy & ->);
        rewrite (IH _ _ rest Hy), emit_emit; reflexivity.
    + destruct (decide (c = Template.rbrace)).
      * destruct (decide (id = "")); [discriminate|].
        destruct (Template.lookup mapping id) as [v|err]; simpl in Hpre |- *; [|discriminate].
        apply emit_done_inv in Hpre as (y & Hy & ->).
        rewrite (IH _ _ rest Hy), emit_emit. reflexivity.
      * destruct (if decide (id = "") then Template.is_id_start c else Template.is_id_char c);
          [apply IH; assumption | discriminate].
Qed.

(** The characters of an identifier extend the name being read. *)
Lemma scan_named_id id : forall acc rest,
  all_id_chars id = true ->
  Template.scan mapping (Template.Named acc) (id +:+ rest)
  = Template.scan mapping (Template.Named (acc +:+ id)) rest.
Proof.
  induction id as [|c id IH]; intros acc rest Hid.
  - rewrite str_app_nil_l, str_app_nil_r. reflexivity.
  - simpl in Hid. apply andb_true_iff in Hid as [Hc Hid].
    rewrite str_app_cons. simpl. rewrite Hc.
    rewrite (IH _ rest Hid), str_app_assoc. reflexivity.
Qed.

(** A name ends where the next character cannot continue it. *)
Lemma scan_named_end id v post :
  no_id_head post ->
  Dict.get id mapping = Some v ->
  Template.scan mapping (Template.Named id) post
  = Template.emit v (Template.scan mapping Template.Text post).
Proof.
  intros Hpost Hget. destruct post as [|c post]; simpl.
  - unfold Template.lookup. rewrite Hget, str_app_nil_r. reflexivity.
  - simpl in Hpost. rewrite Hpost. unfold Template.lookup. rewrite Hget. simpl.
    destruct (decide (c = Template.dollar)); [reflexivity|].
    rewrite emit_emit. reflexivity.
Qed.

(** A placeholder [$id] after a prefix that substitutes well is replaced
    by the value of [id]. *)
Lemma substitute_placeholder pre pre' id v post :
  Template.substitute pre mapping = Done pre' ->
  valid_identifier id = true ->
  no_id_head post ->
  Dict.get id mapping = Some v ->
  Template.substitute (pre +:+ String Template.dollar (id +:+ post)) mapping
  = Template.emit (pre' +:+ v) (Template.substitute post mapping).
Proof.
  unfold Template.substitute. intros Hpre Hid Hpost Hget.
  rewrite (scan_app_dollar pre _ _ _ Hpre).
  destruct id as [|c id]; [discriminate|].
  simpl in Hid. apply andb_true_iff in Hid as [Hc Hid].
  rewrite str_app_cons. simpl.
  destruct (decide (c = Template.dollar)) as [Heq|_];
    [exfalso; exact (id_start_not_dollar c Hc Heq)|].
  rewrite Hc, (scan_named_id id _ post Hid).
  change (String c "" +:+ id) with (String c id).
  rewrite (scan_named_end _ v post Hpost Hget), emit_emit. reflexivity.
Qed.



End template_facts.

(** ** The manifest that [add_templates] stores *)

Lemma gen_file_entry_spec toml tracked :
  Project._gen_file_entry toml tracked = spec_manifest_body toml tracked.
Proof.
  unfold Project._gen_file_entry, spec_manifest_body, Project.file_entry.
  destruct toml; reflexivity.
Qed.

(** A regeneration that returns has read the selected template from the
    disk and substituted the body of the current tracked list into it. *)
Lemma parse_cfg_disk self fs s m s1 :
  Project._parse_pyscript_cfg self fs s = (Done m, s1) ->
  s1 = Project.set_pyscript_config (manifest_name self fs) s
  /\ exists tpl,
       node_at fs (selected_template self fs) = File (Some tpl)
       /\ Template.substitute tpl
            [("files_entry",
              spec_manifest_body (is_file fs (Project.toml_cfg self)) (Project.files s))]
          = Done m.
Proof.
  unfold Project._parse_pyscript_cfg, manifest_name, selected_template, read_text.
  destruct (is_file fs (Project.toml_cfg self)).
  - unfold_py; simpl.
    destruct (node_at fs (Project.toml_cfg self)) as [| |[c|]|]; simpl; try discriminate.
    intros H. injection H as Hm <-. split; [reflexivity|]. exists c.
    unfold Project._gen_cfg_replace in Hm. rewrite gen_file_entry_spec in Hm. auto.
  - destruct (is_file fs (Project.json_cfg self)); [|discriminate].
    unfold_py; simpl.
    destruct (node_at fs (Project.json_cfg self)) as [| |[c|]|]; simpl; try discriminate.
    intros H. injection H as Hm <-. split; [reflexivity|]. exists c.
    unfold Project._gen_cfg_replace in Hm. rewrite gen_file_entry_spec in Hm. auto.
Qed.

(** C2, as amended: a call of [add_templates] that returns, made when the
    manifest name is already the recorded one, has appended the two
    derived paths, the manifest name and [index.html], to the tracked
    list; both artifacts are then text entries of the archive; and the
    manifest stored is the template on the disk with [files_entry]
    replaced by the body of the whole extended list, so that where the
    template has the placeholder the manifest lists the source files
    followed by the two derived paths. *)
Theorem add_templates_extends_tracked_list self fs s s' :
  Project.add_templates self fs s = (Done tt, s') ->
  Project.pyscript_config s = Project.pyscript_config s' ->
  let toml := is_file fs (Project.toml_cfg self) in
  let mapping := [("files_entry", spec_manifest_body toml (Project.files s'))] in
  Project.files s'
  = Project.files s ++ [Path.of_str (Project.pyscript_config s'); Path.of_str INDEX_LOC]
  /\ Dict.mem (Path.of_str INDEX_LOC) (ZipBuilder.texts (Project.zip s')) = true
  /\ exists tpl manifest,
       node_at fs (selected_template self fs) = File (Some tpl)
       /\ Template.substitute tpl mapping = Done manifest
       /\ Dict.get (Path.of_str (Project.pyscript_config s')) (ZipBuilder.texts (Project.zip s'))
          = Some manifest
       /\ forall pre post pre',
            tpl = pre +:+ "$files_entry" +:+ post ->
            no_id_head post ->
            Template.substitute pre mapping = Done pre' ->
            Done manifest
            = Template.emit (pre' +:+ spec_manifest_body toml (Project.files s'))
                (Template.substitute post mapping).
Proof.
  unfold Project.add_templates. unfold_py. simpl.
  set (s0 := Project.set_files _ s).
  destruct (Project._parse_pyscript_cfg self fs s0) as [[m|e] s1] eqn:Hcfg; [|discriminate].
  destruct (parse_cfg_disk self fs s0 m s1 Hcfg) as (Hs1 & tpl & Hnode & Hsub).
  destruct (ZipBuilder.add_text m (Path.of_str (Project.pyscript_config s1)) (Project.zip s1))
    as [[[]|e] z1] eqn:Hput1; simpl; [|discriminate].
  pose proof (parse_index_frame self fs (Project.set_zip z1 s1)) as Hidx.
  destruct (Project._parse_index_html self fs (Project.set_zip z1 s1)) as [[page|e] s2];
    simpl in *; [|discriminate]. subst s2.
  match goal with |- context [ZipBuilder.add_text page ?d ?z] =>
    destruct (ZipBuilder.add_text page d z) as [[[]|e] z2] eqn:Hput2 end;
    simpl; [|discriminate].
  intros H. injection H as <-. simpl. intros Hsame.
  destruct (add_text_done _ _ _ _ Hput1) as (_ & Hget1 & _).
  destruct (add_text_done _ _ _ _ Hput2) as (_ & Hget2 & Hother).
  assert (Hfiles : Project.files s1
                   = Project.files s ++ [Path.of_str (Project.pyscript_config s1);
                                         Path.of_str INDEX_LOC]).
  { rewrite <- Hsame. rewrite Hs1. reflexivity. }
  assert (Hsub' : Template.substitute tpl
                    [("files_entry",
                      spec_manifest_body (is_file fs (Project.toml_cfg self)) (Project.files s1))]
                  = Done m).
  { rewrite Hfiles, <- Hsame. exact Hsub. }
  split; [assumption|].
  split; [apply get_mem; rewrite Hget2; eauto|].
  exists tpl, m. split; [assumption|]. split; [assumption|]. split.
  - rewrite Hother; [assumption|].
    rewrite Hs1. unfold manifest_name. simpl.
    destruct (is_file fs (Project.toml_cfg self)); vm_compute; discriminate.
  - intros pre post pre' -> Hpost Hpre. rewrite <- Hsub'.
    apply (substitute_placeholder _ pre pre' "files_entry" _ post); try assumption; reflexivity.
Qed.

Lemma add_templates_extends_tracked_list_witness :
  Project.files Sample.started
  = map Sample.P ["main.py"; "style.css"; "pyscript.toml"; "index.html"]
  /\ Dict.mem (Path.of_str INDEX_LOC) (ZipBuilder.texts (Project.zip Sample.started)) = true
  /\ Dict.get (Path.of_str "pyscript.toml") (ZipBuilder.texts (Project.zip Sample.started))
     = Some ("[files]" +:+ Str.newline
             +:+ quoted "main.py" +:+ " = ''" +:+ Str.newline
             +:+ quoted "style.css" +:+ " = ''" +:+ Str.newline
             +:+ quoted "pyscript.toml" +:+ " = ''" +:+ Str.newline
             +:+ quoted "index.html" +:+ " = ''").
Proof.
  destruct (add_templates_extends_tracked_list Sample.self Sample.fs
              (snd (Project.add_src Sample.self Sample.fs initial)) Sample.started)
    as (Hfiles & Hmem & tpl & manifest & Hnode & _ & Hget & Hbody).
  - vm_compute. reflexivity.
  - reflexivity.
  - split; [exact Hfiles|]. split; [exact Hmem|].
    assert (Htpl : tpl = "[files]$files_entry").
    { assert (H : File (Some tpl) = File (Some "[files]$files_entry"))
        by (rewrite <- Hnode; reflexivity).
      injection H as ->. reflexivity. }
    specialize (Hbody "[files]" "" "[files]" Htpl I eq_refl).
    change (Project.pyscript_config Sample.started) with "pyscript.toml" in Hget.
    rewrite Hget. f_equal.
    assert (Hd : Done manifest
                 = Done ("[files]" +:+ Str.newline
                         +:+ quoted "main.py" +:+ " = ''" +:+ Str.newline
                         +:+ quoted "style.css" +:+ " = ''" +:+ Str.newline
                         +:+ quoted "pyscript.toml" +:+ " = ''" +:+ Str.newline
                         +:+ quoted "index.html" +:+ " = ''")).
    { rewrite Hbody. vm_compute. reflexivity. }
    injection Hd as ->. reflexivity.
Defined.

(** ** A source file that cannot be read *)



Section unreadable_on_sample.
Import Sample.


End unreadable_on_sample.



(** ** The name of the JSON manifest *)

(** With no TOML template and a JSON template, regeneration records the
    name [pyscipt.json] before it reads the template, so also when reading
    or substituting then fails. *)
Lemma json_manifest_name self fs s :
  is_file fs (Project.toml_cfg self) = false ->
  is_file fs (Project.json_cfg self) = true ->
  snd (Project._parse_pyscript_cfg self fs s)
  = Project.set_pyscript_config "pyscipt.json" s.
Proof.
  intros Ht Hj. unfold Project._parse_pyscript_cfg, read_text. rewrite Ht, Hj.
  unfold_py. simpl.
  destruct (node_at fs (Project.json_cfg self)) as [| |[c|]|]; reflexivity.
Qed.

(** What [_parse_index_html] computes when the configuration has the
    three keys and the template can be read. *)
Lemma parse_index_value self fs s tpl version script_type main_script :
  node_at fs (Project.index_template self) = File (Some tpl) ->
  Project.runtime_pyscript self = Some version ->
  Project.runtime_script_type self = Some script_type ->
  Project.project_main self = Some main_script ->
  fst (Project._parse_index_html self fs s)
  = Template.substitute tpl
      (Project.index_mapping ("https://pyscript.net/releases/" +:+ toml_str version)
         (toml_str script_type) (toml_str main_script) (Project.pyscript_config s)).
Proof.
  intros Hn Hv Hs Hm. unfold Project._parse_index_html, read_text, config_get.
  rewrite Hn, Hv, Hs, Hm. unfold_py. simpl. reflexivity.
Qed.

(** C10: when the TOML template is absent and the JSON template present,
    manifest regeneration sets the manifest name to [pyscipt.json], which is
    not [pyscript.json]; and the entry page generated afterwards has that
    name wherever its template has the placeholder [$pyscript_config]. *)
Theorem json_manifest_name_is_misspelled self fs s :
  is_file fs (Project.toml_cfg self) = false ->
  is_file fs (Project.json_cfg self) = true ->
  let s1 := snd (Project._parse_pyscript_cfg self fs s) in
  Project.pyscript_config s1 = "pyscipt.json"
  /\ Project.pyscript_config s1 <> "pyscript.json"
  /\ forall version script_type main_script pre post pre',
       Project.runtime_pyscript self = Some version ->
       Project.runtime_script_type self = Some script_type ->
       Project.project_main self = Some main_script ->
       node_at fs (Project.index_template self)
       = File (Some (pre +:+ "$pyscript_config" +:+ post)) ->
       no_id_head post ->
       let mapping :=
         Project.index_mapping ("https://pyscript.net/releases/" +:+ toml_str version)
           (toml_str script_type) (toml_str main_script) "pyscipt.json" in
       Template.substitute pre mapping = Done pre' ->
       fst (Project._parse_index_html self fs s1)
       = Template.emit (pre' +:+ "pyscipt.json") (Template.substitute post mapping).
Proof.
  intros Ht Hj s1. unfold s1. rewrite (json_manifest_name self fs s Ht Hj). simpl.
  split; [reflexivity|]. split; [discriminate|].
  intros version script_type main_script pre post pre' Hv Hs Hm Hn Hpost Hpre.
  rewrite (parse_index_value self fs _ _ version script_type main_script Hn Hv Hs Hm).
  simpl.
  apply (substitute_placeholder _ pre pre' "pyscript_config" "pyscipt.json" post);
    try assumption; reflexivity.
Qed.

Lemma json_manifest_name_is_misspelled_witness :
  Project.pyscript_config (snd (Project._parse_pyscript_cfg Sample.self Sample.fs_json initial))
  = "pyscipt.json"
  /\ fst (Project._parse_index_html Sample.self Sample.fs_json
            (snd (Project._parse_pyscript_cfg Sample.self Sample.fs_json initial)))
     = Done ("<script src='https://pyscript.net/releases/2024.1.1/core.js'></script>"
             +:+ "<script type='py' src='main.py' config='pyscipt.json'></script>").
Proof.
  destruct (json_manifest_name_is_misspelled Sample.self Sample.fs_json initial)
    as (Hname & _ & Hpage); [reflexivity | reflexivity |].
  split; [exact Hname|].
  rewrite (Hpage (TomlStr "2024.1.1") (TomlStr "py") (TomlStr "main.py")
             "<script src='$cdn/core.js'></script><script type='$script_type' src='$main_script' config='"
             "'$extra_script_params></script>"
             ("<script src='https://pyscript.net/releases/2024.1.1/core.js'></script>"
              +:+ "<script type='py' src='main.py' config='"));
    reflexivity.
Defined.

(** * Further properties of the code *)

(** ** More on dictionaries *)

Section more_dict_facts.
Context {K V : Type} `{EqDecision K}.
Implicit Types (k : K) (v : V) (d : list (K * V)).

Lemma mem_after_set k k' v d :
  Dict.mem k' (Dict.set k v d) = bool_decide (k' = k) || Dict.mem k' d.
Proof.
  induction d as [|[k0 v0] d IH]; simpl.
  - destruct (decide (k' = k)); [rewrite bool_decide_eq_true_2 | rewrite bool_decide_eq_false_2];
      auto.
  - destruct (decide (k = k0)) as [->|Hne]; simpl.
    + destruct (decide (k' = k0)); [rewrite bool_decide_eq_true_2 | rewrite bool_decide_eq_false_2];
        auto.
    + rewrite IH. destruct (decide (k' = k0)) as [->|]; [|reflexivity].
      apply eq_sym, orb_true_r.
Qed.

Lemma del_absent k d : Dict.mem k d = false -> Dict.del k d = d.
Proof.
  induction d as [|[k0 v0] d IH]; simpl; [reflexivity|].
  destruct (decide (k = k0)); [discriminate|]. intros Hm. rewrite IH by assumption. reflexivity.
Qed.

Lemma mem_del_same k d : unique_keys d -> Dict.mem k (Dict.del k d) = false.
Proof.
  unfold unique_keys. induction d as [|[k0 v0] d IH]; simpl; [reflexivity|].
  intros Hnd. apply NoDup_cons in Hnd as [Hnot Hnd].
  destruct (decide (k = k0)) as [->|Hne]; simpl.
  - apply mem_false_keys. assumption.
  - destruct (decide (k = k0)); [contradiction | auto].
Qed.

Lemma unique_keys_del k d : unique_keys d -> unique_keys (Dict.del k d).
Proof.
  unfold unique_keys. intros Hnd. rewrite keys_del_filter by assumption.
  apply NoDup_filter. assumption.
Qed.

Lemma unique_keys_set k v d : unique_keys d -> unique_keys (Dict.set k v d).
Proof.
  unfold unique_keys. intros Hnd. rewrite keys_set.
  destruct (Dict.mem k d) eqn:Hm; [assumption|].
  apply NoDup_app. repeat split; [assumption | | apply NoDup_singleton].
  intros x Hx Hx'. apply list_elem_of_singleton in Hx'. subst.
  apply mem_false_keys in Hm. contradiction.
Qed.

Lemma set_set k v d : Dict.set k v (Dict.set k v d) = Dict.set k v d.
Proof.
  induction d as [|[k0 v0] d IH]; simpl.
  - destruct (decide (k = k)); [reflexivity | contradiction].
  - destruct (decide (k = k0)) as [->|Hne]; simpl.
    + destruct (decide (k0 = k0)); [reflexivity | contradiction].
    + destruct (decide (k = k0)); [contradiction|]. rewrite IH. reflexivity.
Qed.

Lemma del_set_fresh k v d : Dict.mem k d = false -> Dict.del k (Dict.set k v d) = d.
Proof.
  induction d as [|[k0 v0] d IH]; simpl.
  - intros _. destruct (decide (k = k)); [reflexivity | contradiction].
  - destruct (decide (k = k0)) as [->|Hne]; [discriminate|]. simpl.
    destruct (decide (k = k0)); [contradiction|].
    intros Hm. rewrite IH by assumption. reflexivity.
Qed.

End more_dict_facts.

(** ** The virtual archive *)

(** [has] answers exactly for the paths [get] can serve: on a path the
    archive has, [get] returns and changes nothing; on any other path it
    raises [FileNotFoundError]. *)
Theorem get_returns_iff_has p z :
  (ZipBuilder.has p z = true <-> exists data, ZipBuilder.get p z = (Done data, z))
  /\ (ZipBuilder.has p z = false <->
      ZipBuilder.get p z
      = (Raised (FileNotFoundError ("no such file in the ZIP: " +:+ Path.str p)), z)).
Proof.
  assert (Hf : ZipBuilder.has p z = false ->
               ZipBuilder.get p z
               = (Raised (FileNotFoundError ("no such file in the ZIP: " +:+ Path.str p)), z)).
  { unfold ZipBuilder.has, ZipBuilder.get. intros Hh.
    apply orb_false_elim in Hh as [H1 H2].
    apply get_none in H1, H2. rewrite H1, H2. reflexivity. }
  split; split.
  - apply get_of_has.
  - intros [data Hd]. destruct (ZipBuilder.has p z) eqn:Hh; [reflexivity|].
    rewrite (Hf eq_refl) in Hd. discriminate.
  - exact Hf.
  - intros Hr. destruct (ZipBuilder.has p z) eqn:Hh; [|reflexivity].
    destruct (get_of_has p z Hh) as [data Hd]. rewrite Hd in Hr. discriminate.
Qed.

Lemma zip_add_file_ok fs file dest z data :
  node_at fs file = File (Some data) ->
  exists z',
    ZipBuilder.add_file fs file dest z = (Done tt, z')
    /\ ZipBuilder.get dest z' = (Done data, z')
    /\ ZipBuilder.has dest z' = true
    /\ forall q, q <> dest ->
         Dict.get q (ZipBuilder.files z') = Dict.get q (ZipBuilder.files z).
Proof.
  intros Hnode. unfold ZipBuilder.add_file, read_text. unfold_py. rewrite Hnode.
  assert (Hget : forall t,
    Dict.get dest (Dict.set dest {| ZipBuilder.content := data; ZipBuilder.path := file |} t)
    = Some {| ZipBuilder.content := data; ZipBuilder.path := file |}).
  { intros t. rewrite get_set. destruct (decide (dest = dest)); [reflexivity | contradiction]. }
  destruct (Dict.mem file (ZipBuilder.texts z)); simpl;
    eexists; (split; [reflexivity|]);
    (split; [unfold ZipBuilder.get; simpl; rewrite Hget; reflexivity|]);
    (split; [unfold ZipBuilder.has; simpl; rewrite mem_after_set, bool_decide_eq_true_2;
             reflexivity|]);
    intros q Hq; simpl; rewrite get_set; destruct (decide (q = dest)); congruence.
Qed.

(** Putting a readable file: the call returns, [get] on the destination
    then gives what the disk holds, whatever entries the destination had
    before, and the file-backed entries of the other paths are as they
    were. *)
Theorem add_file_then_get fs file dest z data :
  node_at fs file = File (Some data) ->
  exists z',
    ZipBuilder.add_file fs file dest z = (Done tt, z')
    /\ ZipBuilder.get dest z' = (Done data, z')
    /\ ZipBuilder.has dest z' = true
    /\ forall q, q <> dest ->
         Dict.get q (ZipBuilder.files z') = Dict.get q (ZipBuilder.files z).
Proof. apply zip_add_file_ok. Qed.

Lemma add_file_then_get_witness :
  exists z',
    ZipBuilder.add_file Sample.fs (Sample.P "/proj/src/main.py") (Sample.P "main.py")
      (Project.zip Sample.started) = (Done tt, z')
    /\ ZipBuilder.get (Sample.P "main.py") z' = (Done "print(1)", z')
    /\ ZipBuilder.has (Sample.P "main.py") z' = true
    /\ forall q, q <> Sample.P "main.py" ->
         Dict.get q (ZipBuilder.files z')
         = Dict.get q (ZipBuilder.files (Project.zip Sample.started)).
Proof.
  apply (add_file_then_get Sample.fs (Sample.P "/proj/src/main.py") (Sample.P "main.py")
           (Project.zip Sample.started) "print(1)").
  reflexivity.
Defined.

(** Putting a text on a path that has no file-backed entry: the call
    returns, [get] on the path then gives the text, no file-backed entry
    appears, and the text entries of the other paths are as they were. *)
Theorem add_text_then_get text dest z :
  Dict.mem dest (ZipBuilder.files z) = false ->
  exists z',
    ZipBuilder.add_text text dest z = (Done tt, z')
    /\ ZipBuilder.get dest z' = (Done text, z')
    /\ ZipBuilder.files z' = ZipBuilder.files z
    /\ forall q, q <> dest ->
         Dict.get q (ZipBuilder.texts z') = Dict.get q (ZipBuilder.texts z).
Proof.
  intros Hm. unfold ZipBuilder.add_text. unfold_py. rewrite Hm. simpl.
  eexists. split; [reflexivity|]. simpl.
  split.
  - unfold ZipBuilder.get. simpl. apply get_none in Hm. rewrite Hm, get_set.
    destruct (decide (dest = dest)); [reflexivity | contradiction].
  - split; [reflexivity|]. intros q Hq. rewrite get_set.
    destruct (decide (q = dest)); [contradiction | reflexivity].
Qed.

Lemma add_text_then_get_witness :
  exists z',
    ZipBuilder.add_text "hello" (Sample.P "robots.txt") (Project.zip Sample.started)
    = (Done tt, z')
    /\ ZipBuilder.get (Sample.P "robots.txt") z' = (Done "hello", z')
    /\ ZipBuilder.files z' = ZipBuilder.files (Project.zip Sample.started)
    /\ forall q, q <> Sample.P "robots.txt" ->
         Dict.get q (ZipBuilder.texts z')
         = Dict.get q (ZipBuilder.texts (Project.zip Sample.started)).
Proof.
  apply (add_text_then_get "hello" (Sample.P "robots.txt") (Project.zip Sample.started)).
  reflexivity.
Defined.

(** [del_entry] never raises.  It removes the path from both kinds of
    entries, leaves every other path as it was, and on a path the archive
    does not have it changes nothing. *)
Theorem del_entry_removes p z :
  well_formed z ->
  exists z',
    ZipBuilder.del_entry p z = (Done tt, z')
    /\ ZipBuilder.has p z' = false
    /\ (forall q, q <> p ->
          Dict.get q (ZipBuilder.files z') = Dict.get q (ZipBuilder.files z)
          /\ Dict.get q (ZipBuilder.texts z') = Dict.get q (ZipBuilder.texts z))
    /\ (ZipBuilder.has p z = false -> z' = z)
    /\ well_formed z'.
Proof.
  intros [Hwf Hwt]. unfold ZipBuilder.del_entry. unfold_py.
  destruct z as [fl tx]; simpl in *.
  destruct (Dict.mem p fl) eqn:Hf; simpl; destruct (Dict.mem p tx) eqn:Ht; simpl;
    eexists; (split; [reflexivity|]); unfold ZipBuilder.has, well_formed; simpl;
    rewrite ?mem_del_same, ?Hf, ?Ht by assumption;
    (split; [reflexivity|]);
    (split; [intros q Hq; rewrite ?get_del_ne by assumption; split; reflexivity|]);
    (split; [intros Hh; solve [discriminate | reflexivity]|]);
    split; try apply unique_keys_del; assumption.
Qed.

Lemma del_entry_removes_witness :
  exists z',
    ZipBuilder.del_entry (Sample.P "main.py") (Project.zip Sample.started) = (Done tt, z')
    /\ ZipBuilder.has (Sample.P "main.py") z' = false
    /\ (forall q, q <> Sample.P "main.py" ->
          Dict.get q (ZipBuilder.files z')
          = Dict.get q (ZipBuilder.files (Project.zip Sample.started))
          /\ Dict.get q (ZipBuilder.texts z')
             = Dict.get q (ZipBuilder.texts (Project.zip Sample.started)))
    /\ (ZipBuilder.has (Sample.P "main.py") (Project.zip Sample.started) = false ->
        z' = Project.zip Sample.started)
    /\ well_formed z'.
Proof.
  apply (del_entry_removes (Sample.P "main.py") (Project.zip Sample.started)).
  split; vm_compute; repeat constructor;
    rewrite ?list_elem_of_In; simpl; intuition discriminate.
Defined.

(** The three mutators keep the keys of both dictionaries unique, whether
    they return or raise; the empty archive has unique keys. *)
Lemma well_formed_kept z :
  well_formed z ->
  (forall fs file dest, well_formed (snd (ZipBuilder.add_file fs file dest z)))
  /\ (forall text dest, well_formed (snd (ZipBuilder.add_text text dest z)))
  /\ (forall p, well_formed (snd (ZipBuilder.del_entry p z))).
Proof.
  intros [Hwf Hwt]. split; [|split].
  - intros fs file dest. unfold ZipBuilder.add_file, read_text. unfold_py.
    destruct (Dict.mem file (ZipBuilder.texts z)); simpl;
      destruct (node_at fs file) as [| |[c|]|]; simpl; split; simpl;
      auto using unique_keys_del, unique_keys_set.
  - intros text dest. unfold ZipBuilder.add_text. unfold_py.
    destruct (Dict.mem dest (ZipBuilder.files z)); simpl;
      [destruct (Dict.mem dest (ZipBuilder.texts z)); simpl|]; split; simpl;
      auto using unique_keys_del, unique_keys_set.
  - intros p. unfold ZipBuilder.del_entry. unfold_py.
    destruct (Dict.mem p (ZipBuilder.files z)); simpl;
      destruct (Dict.mem p _); simpl; split; simpl;
      auto using unique_keys_del, unique_keys_set.
Qed.

Lemma get_returns_has p z data z' :
  ZipBuilder.get p z = (Done data, z') -> ZipBuilder.has p z = true.
Proof.
  unfold ZipBuilder.get, ZipBuilder.has.
  destruct (Dict.get p (ZipBuilder.files z)) eqn:Hf.
  - intros _. assert (Hm : Dict.mem p (ZipBuilder.files z) = true)
      by (apply get_mem; rewrite Hf; eauto). rewrite Hm. reflexivity.
  - destruct (Dict.get p (ZipBuilder.texts z)) eqn:Ht; [|discriminate].
    intros _. assert (Hm : Dict.mem p (ZipBuilder.texts z) = true)
      by (apply get_mem; rewrite Ht; eauto). rewrite Hm. apply orb_true_r.
Qed.

(** ** The path translator *)

Lemma is_prefix_app xs ys :
  Path.is_prefix xs ys = true -> xs ++ drop (length xs) ys = ys.
Proof.
  revert ys. induction xs as [|x xs IH]; intros ys; simpl; [reflexivity|].
  destruct ys as [|y ys]; [discriminate|].
  intros H. apply andb_true_iff in H as [Hxy Hrest].
  apply bool_decide_eq_true in Hxy. subst. simpl. rewrite IH by assumption. reflexivity.
Qed.

(** A destination is always a relative path, and it is the given path with
    its root taken away: for an absolute path the components of the
    resolved source root, for a relative path under the configured source
    directory the components of that directory, for any other relative
    path nothing. *)
Theorem convert_path_strips_root self path dest :
  Project.convert_path self path = Some dest ->
  Path.is_absolute dest = false
  /\ (Path.is_absolute path = true ->
      Path.root path = Path.root (Project.src_path self)
      /\ Path.parts (Project.src_path self) ++ Path.parts dest = Path.parts path)
  /\ (Path.is_absolute path = false ->
      dest = path
      \/ Path.parts (Path.of_str (Project.project_src self)) ++ Path.parts dest
         = Path.parts path).
Proof.
  unfold Project.convert_path, Path.is_relative_to, Path.relative_to.
  destruct (Path.is_absolute path) eqn:Habs.
  - destruct (Path.root path =? Path.root (Project.src_path self)) eqn:Hroot; simpl;
      [|discriminate].
    destruct (Path.is_prefix _ _) eqn:Hpre; simpl; [|discriminate].
    intros H. injection H as <-. simpl.
    split; [reflexivity|]. split; [|discriminate].
    intros _. split; [apply Nat.eqb_eq; assumption | apply is_prefix_app; assumption].
  - destruct ((Path.root path =? _) && Path.is_prefix _ _) eqn:Hrel.
    + apply andb_true_iff in Hrel as [_ Hpre].
      intros H. injection H as <-. simpl.
      split; [reflexivity|]. split; [discriminate|].
      intros _. right. apply is_prefix_app. assumption.
    + intros H. injection H as <-. split; [assumption|]. split; [discriminate|].
      intros _. left. reflexivity.
Qed.

Lemma convert_path_strips_root_witness :
  Path.is_absolute (Sample.P "js/app.js") = false
  /\ (Path.is_absolute (Sample.P "/proj/src/js/app.js") = true ->
      Path.root (Sample.P "/proj/src/js/app.js") = Path.root (Project.src_path Sample.self)
      /\ Path.parts (Project.src_path Sample.self) ++ Path.parts (Sample.P "js/app.js")
         = Path.parts (Sample.P "/proj/src/js/app.js"))
  /\ (Path.is_absolute (Sample.P "/proj/src/js/app.js") = false ->
      Sample.P "js/app.js" = Sample.P "/proj/src/js/app.js"
      \/ Path.parts (Path.of_str (Project.project_src Sample.self))
           ++ Path.parts (Sample.P "js/app.js")
         = Path.parts (Sample.P "/proj/src/js/app.js")).
Proof.
  apply (convert_path_strips_root Sample.self (Sample.P "/proj/src/js/app.js")
           (Sample.P "js/app.js")).
  reflexivity.
Defined.

(** ** Adding and removing source files *)

Lemma list_remove_none x l : Project.list_remove x l = None <-> x ∉ l.
Proof.
  induction l as [|y l IH]; simpl.
  - split; [intros _ Hin; inversion Hin | reflexivity].
  - destruct (decide (y = x)) as [->|Hne].
    + split; [discriminate | intros Hnot; exfalso; apply Hnot; left].
    + destruct (Project.list_remove x l) as [r|].
      * split; [discriminate|]. intros Hnot. exfalso.
        apply not_elem_of_cons in Hnot as [_ Hnot]. apply IH in Hnot. discriminate.
      * split; [|reflexivity]. intros _. apply not_elem_of_cons. split; [congruence|].
        apply IH. reflexivity.
Qed.

Lemma list_remove_last x l : x ∉ l -> Project.list_remove x (l ++ [x]) = Some l.
Proof.
  induction l as [|y l IH]; simpl; intros Hnot.
  - destruct (decide (x = x)); [reflexivity | contradiction].
  - apply not_elem_of_cons in Hnot as [Hne Hnot].
    destruct (decide (y = x)); [congruence|]. rewrite IH by assumption. reflexivity.
Qed.

(** What a call of [add_file] on a plain path that returns has done: the
    source file was readable, the archive now has it under the destination
    with the content on the disk, and the tracked list is the old one,
    with the destination appended if the archive did not have it. *)
Lemma add_file_done self fs path dest s s' :
  Project.convert_path self path = Some dest ->
  Project.add_file self fs path s = (Done tt, s') ->
  exists data,
    node_at fs path = File (Some data)
    /\ Project.files s'
       = (if Project.has dest s then Project.files s else Project.files s ++ [dest])
    /\ Project.zip s'
       = snd (ZipBuilder.add_file fs path dest (Project.zip s))
    /\ fst (ZipBuilder.add_file fs path dest (Project.zip s)) = Done tt
    /\ (Project.has dest s = true -> Project.pyscript_config s' = Project.pyscript_config s).
Proof.
  intros Hc. unfold Project.add_file, Project.has. rewrite Hc. unfold_py.
  assert (Hzip : forall z r z', ZipBuilder.add_file fs path dest z = (r, z') ->
            r = Done tt -> exists data, node_at fs path = File (Some data)).
  { intros z r z'. unfold ZipBuilder.add_file, read_text. unfold_py.
    destruct (Dict.mem path (ZipBuilder.texts z)); simpl;
      destruct (node_at fs path) as [| |[c|]|]; simpl; intros H; injection H as <- <-;
      intros; try discriminate; eauto. }
  destruct (ZipBuilder.has dest (Project.zip s)) eqn:Hhas; simpl.
  - destruct (ZipBuilder.add_file fs path dest (Project.zip s)) as [r z'] eqn:Hadd.
    intros H. injection H as -> <-. destruct (Hzip _ _ _ Hadd eq_refl) as [data Hd].
    exists data. simpl. auto.
  - pose proof (parse_cfg_frame self fs
      (Project.set_files (Project.files s ++ [dest]) s)) as [Hz Hf].
    destruct (Project._parse_pyscript_cfg self fs
      (Project.set_files (Project.files s ++ [dest]) s)) as [[m|e] s1]; simpl in *;
      [|discriminate].
    rewrite Hz.
    destruct (ZipBuilder.add_file fs path dest (Project.zip s)) as [r z'] eqn:Hadd.
    intros H. injection H as -> <-. destruct (Hzip _ _ _ Hadd eq_refl) as [data Hd].
    exists data. simpl. repeat split; try assumption. discriminate.
Qed.

(** After [add_file] on a plain path has returned, the archive serves the
    destination with the content the source file has on the disk. *)
Theorem add_file_archives_disk_content self fs path dest s s' :
  Project.convert_path self path = Some dest ->
  Project.add_file self fs path s = (Done tt, s') ->
  exists data,
    node_at fs path = File (Some data)
    /\ Project.has dest s' = true
    /\ Project.get dest s' = (Done data, s').
Proof.
  intros Hc Hrun.
  destruct (add_file_done self fs path dest s s' Hc Hrun) as (data & Hnode & _ & Hzip & _).
  destruct (zip_add_file_ok fs path dest (Project.zip s) data Hnode)
    as (z' & Hadd & Hget & Hhas & _).
  rewrite Hadd in Hzip. simpl in Hzip.
  exists data. split; [assumption|]. unfold Project.has, Project.get. unfold_py.
  rewrite Hzip. split; [assumption|]. rewrite Hget.
  destruct s' as [z1 f1 c1]; simpl in *. subst z1. reflexivity.
Qed.

Lemma add_file_archives_disk_content_witness :
  exists data,
    node_at Sample.fs_extra (Sample.P "/proj/src/extra.py") = File (Some data)
    /\ Project.has (Sample.P "extra.py")
         (snd (Project.add_file Sample.self Sample.fs_extra (Sample.P "/proj/src/extra.py")
                 Sample.started)) = true
    /\ Project.get (Sample.P "extra.py")
         (snd (Project.add_file Sample.self Sample.fs_extra (Sample.P "/proj/src/extra.py")
                 Sample.started))
       = (Done data,
          snd (Project.add_file Sample.self Sample.fs_extra (Sample.P "/proj/src/extra.py")
                 Sample.started)).
Proof.
  apply (add_file_archives_disk_content Sample.self Sample.fs_extra
           (Sample.P "/proj/src/extra.py") (Sample.P "extra.py") Sample.started).
  - reflexivity.
  - vm_compute. reflexivity.
Defined.

(** Adding the same readable file twice is the same as adding it once: the
    second call returns and leaves the project exactly as the first one
    left it. *)
Theorem add_file_twice self fs path dest s s' :
  well_formed (Project.zip s) ->
  Project.convert_path self path = Some dest ->
  Project.add_file self fs path s = (Done tt, s') ->
  Project.add_file self fs path s' = (Done tt, s').
Proof.
  intros [_ Hwt] Hc Hrun.
  destruct (add_file_done self fs path dest s s' Hc Hrun) as (data & Hnode & _ & Hzip & _).
  destruct (zip_add_file_ok fs path dest (Project.zip s) data Hnode)
    as (z1 & Hadd & _ & Hhas & _).
  rewrite Hadd in Hzip. simpl in Hzip.
  unfold Project.add_file. rewrite Hc. unfold_py. rewrite Hzip, Hhas. simpl.
  assert (Hsame : ZipBuilder.add_file fs path dest z1 = (Done tt, z1)).
  { revert Hadd. unfold ZipBuilder.add_file, read_text. unfold_py. rewrite Hnode.
    destruct (Dict.mem path (ZipBuilder.texts (Project.zip s))) eqn:Hm; simpl;
      intros H; injection H as <-; simpl.
    - rewrite mem_del_same by assumption. simpl. rewrite set_set. reflexivity.
    - rewrite Hm. simpl. rewrite set_set. reflexivity. }
  rewrite Hzip, Hsame. destruct s' as [z' f' c']; simpl in *. subst z'. reflexivity.
Qed.

Lemma add_file_twice_witness :
  Project.add_file Sample.self Sample.fs_extra (Sample.P "/proj/src/extra.py")
    (snd (Project.add_file Sample.self Sample.fs_extra (Sample.P "/proj/src/extra.py")
            Sample.started))
  = (Done tt,
     snd (Project.add_file Sample.self Sample.fs_extra (Sample.P "/proj/src/extra.py")
            Sample.started)).
Proof.
  apply (add_file_twice Sample.self Sample.fs_extra (Sample.P "/proj/src/extra.py")
           (Sample.P "extra.py") Sample.started).
  - split; vm_compute; repeat constructor;
      rewrite ?list_elem_of_In; simpl; intuition discriminate.
  - reflexivity.
  - vm_compute. reflexivity.
Defined.

(** Adding a new file and removing it again gives back the tracked list
    and the archive as they were. *)
Theorem add_then_remove_restores self fs fs' path dest s s1 s2 :
  Project.convert_path self path = Some dest ->
  Project.has dest s = false ->
  dest ∉ Project.files s ->
  Dict.mem path (ZipBuilder.texts (Project.zip s)) = false ->
  Project.add_file self fs path s = (Done tt, s1) ->
  Project.del_file self fs' path s1 = (Done tt, s2) ->
  Project.files s2 = Project.files s /\ Project.zip s2 = Project.zip s.
Proof.
  intros Hc Hhas Hnot Hpt Hadd Hdel.
  destruct (add_file_done self fs path dest s s1 Hc Hadd) as (data & Hnode & Hf1 & Hz1 & _).
  rewrite Hhas in Hf1.
  unfold Project.has, ZipBuilder.has in Hhas. apply orb_false_elim in Hhas as [Hmf Hmt].
  assert (Hz1' : Project.zip s1
                 = ZipBuilder.set_files
                     (Dict.set dest {| ZipBuilder.content := data; ZipBuilder.path := path |}
                        (ZipBuilder.files (Project.zip s))) (Project.zip s)).
  { rewrite Hz1. unfold ZipBuilder.add_file, read_text. unfold_py.
    rewrite Hpt, Hnode. reflexivity. }
  clear Hz1.
  assert (Hmem : Dict.mem dest
                   (Dict.set dest {| ZipBuilder.content := data; ZipBuilder.path := path |}
                      (ZipBuilder.files (Project.zip s))) = true).
  { rewrite mem_after_set. rewrite bool_decide_eq_true_2 by reflexivity. reflexivity. }
  revert Hdel. unfold Project.del_file. rewrite Hc. unfold_py.
  unfold ZipBuilder.has. rewrite Hz1'. simpl. rewrite Hmem. simpl.
  rewrite Hf1, (list_remove_last dest _ Hnot).
  unfold ZipBuilder.del_entry. unfold_py. simpl. rewrite Hz1'. simpl.
  rewrite Hmem. simpl. rewrite Hmt. simpl. rewrite del_set_fresh by assumption.
  match goal with |- context [Project._parse_pyscript_cfg self fs' ?st] =>
    pose proof (parse_cfg_frame self fs' st) as [Hz Hf];
    destruct (Project._parse_pyscript_cfg self fs' st) as [[m|e] s3] end;
    simpl in *; [|discriminate].
  intros H. injection H as <-. rewrite Hf, Hz.
  split; [reflexivity|]. destruct (Project.zip s); reflexivity.
Qed.

Lemma add_then_remove_restores_witness :
  Project.files
    (snd ((Project.add_file Sample.self Sample.fs_extra (Sample.P "/proj/src/extra.py") ;;
           Project.del_file Sample.self Sample.fs (Sample.P "/proj/src/extra.py"))
            Sample.started))
  = Project.files Sample.started
  /\ Project.zip
       (snd ((Project.add_file Sample.self Sample.fs_extra (Sample.P "/proj/src/extra.py") ;;
              Project.del_file Sample.self Sample.fs (Sample.P "/proj/src/extra.py"))
               Sample.started))
     = Project.zip Sample.started.
Proof.
  apply (add_then_remove_restores Sample.self Sample.fs_extra Sample.fs
           (Sample.P "/proj/src/extra.py") (Sample.P "extra.py") Sample.started
           (snd (Project.add_file Sample.self Sample.fs_extra (Sample.P "/proj/src/extra.py")
                   Sample.started))).
  - reflexivity.
  - reflexivity.
  - intros Hin. apply list_elem_of_In in Hin. vm_compute in Hin. intuition discriminate.
  - reflexivity.
  - vm_compute. reflexivity.
  - vm_compute. reflexivity.
Defined.

(** [del_file] on a path whose destination the archive has but the
    tracked list has not (a text entry alone) raises [ValueError] from
    [list.remove] and changes nothing; on a path with no destination, or
    whose destination the archive does not have, it returns and changes
    nothing. *)
Theorem del_file_edge_cases self fs path s :
  (forall dest,
     Project.convert_path self path = Some dest ->
     Project.has dest s = true ->
     dest ∉ Project.files s ->
     Project.del_file self fs path s
     = (Raised (ValueError "list.remove(x): x not in list"), s))
  /\ (Project.convert_path self path = None -> Project.del_file self fs path s = (Done tt, s))
  /\ (forall dest,
        Project.convert_path self path = Some dest ->
        Project.has dest s = false ->
        Project.del_file self fs path s = (Done tt, s)).
Proof.
  unfold Project.del_file, Project.has. split; [|split].
  - intros dest -> Hhas Hnot. unfold_py. rewrite Hhas. simpl.
    apply list_remove_none in Hnot. rewrite Hnot. reflexivity.
  - intros ->. reflexivity.
  - intros dest -> Hhas. unfold_py. rewrite Hhas. reflexivity.
Qed.

Lemma del_file_edge_cases_witness :
  let s := snd (Project.add_file Sample.self Sample.fs_clash
                  (Sample.P "/proj/config/index.html.template") initial) in
  Project.del_file Sample.self Sample.fs_clash (Sample.P "/proj/src/index.html") s
  = (Raised (ValueError "list.remove(x): x not in list"), s).
Proof.
  intros s.
  destruct (del_file_edge_cases Sample.self Sample.fs_clash
              (Sample.P "/proj/src/index.html") s) as [Hraise _].
  apply (Hraise (Sample.P "index.html")).
  - reflexivity.
  - vm_compute. reflexivity.
  - vm_compute. intros Hin. inversion Hin.
Defined.

(** ** Manifest regeneration *)

(** Which template is used: the TOML one whenever it is a file, also when
    the JSON one is there too; with neither, the call raises [ValueError]
    and leaves the project, manifest name included, as it was.  In no case
    does it touch the tracked list or the archive. *)
Theorem manifest_template_selection self fs s :
  (is_file fs (Project.toml_cfg self) = true ->
   Project.pyscript_config (snd (Project._parse_pyscript_cfg self fs s)) = "pyscript.toml")
  /\ (is_file fs (Project.toml_cfg self) = false ->
      is_file fs (Project.json_cfg self) = false ->
      Project._parse_pyscript_cfg self fs s
      = (Raised (ValueError "non-existant pyscript config"), s))
  /\ Project.files (snd (Project._parse_pyscript_cfg self fs s)) = Project.files s
  /\ Project.zip (snd (Project._parse_pyscript_cfg self fs s)) = Project.zip s.
Proof.
  split; [|split; [|split]].
  - intros Ht. unfold Project._parse_pyscript_cfg, read_text. rewrite Ht. unfold_py. simpl.
    destruct (node_at fs (Project.toml_cfg self)) as [| |[c|]|]; reflexivity.
  - intros Ht Hj. unfold Project._parse_pyscript_cfg. rewrite Ht, Hj. reflexivity.
  - apply parse_cfg_frame.
  - apply parse_cfg_frame.
Qed.

Lemma manifest_template_selection_witness :
  Project.pyscript_config (snd (Project._parse_pyscript_cfg Sample.self Sample.fs initial))
  = "pyscript.toml"
  /\ Project._parse_pyscript_cfg Sample.self Sample.fs_bare Sample.started
     = (Raised (ValueError "non-existant pyscript config"), Sample.started).
Proof.
  split.
  - apply (manifest_template_selection Sample.self Sample.fs initial). reflexivity.
  - apply (manifest_template_selection Sample.self Sample.fs_bare Sample.started);
      reflexivity.
Defined.

(** ** The generated manifest body *)

Lemma printable_app a b : printable (a +:+ b) = printable a && printable b.
Proof.
  induction a as [|x a IH]; [reflexivity|].
  rewrite str_app_cons. simpl. rewrite IH, andb_assoc. reflexivity.
Qed.

Lemma count_char_app c a b : count_char c (a +:+ b) = count_char c a + count_char c b.
Proof.
  induction a as [|x a IH]; [reflexivity|].
  rewrite str_app_cons. simpl. rewrite IH. lia.
Qed.

Lemma escape_char_printable c : printable (Json.escape_char c) = true.
Proof.
  destruct c as [[] [] [] [] [] [] [] []]; vm_compute; reflexivity.
Qed.

Lemma dumps_printable s : printable (Json.dumps s) = true.
Proof.
  unfold Json.dumps. rewrite !printable_app.
  assert (He : printable (Json.escape s) = true).
  { induction s as [|c s IH]; [reflexivity|]. simpl.
    rewrite printable_app, escape_char_printable, IH. reflexivity. }
  rewrite He. reflexivity.
Qed.

Lemma printable_no_newline s : printable s = true -> count_char (Str.chr 10) s = 0.
Proof.
  induction s as [|x s IH]; [reflexivity|]. simpl.
  intros H. apply andb_true_iff in H as [Hx Hs]. rewrite (IH Hs).
  destruct (decide (x = Str.chr 10)) as [->|_]; [discriminate | reflexivity].
Qed.

Lemma file_entry_printable toml pth : printable (Project.file_entry toml pth) = true.
Proof.
  unfold Project.file_entry. destruct toml; rewrite printable_app, dumps_printable; reflexivity.
Qed.

(** Whatever characters the tracked paths contain (quotes, line breaks,
    characters outside ASCII), every generated entry is printable ASCII,
    and the body has one line break before each entry and no other: one
    path, one line. *)
Theorem file_entries_one_per_line toml tracked :
  Forall (fun pth => printable (Project.file_entry toml pth) = true) tracked
  /\ count_char (Str.chr 10) (Project._gen_file_entry toml tracked)
     = Nat.max 1 (length tracked).
Proof.
  split.
  - apply Forall_forall. intros pth _. apply file_entry_printable.
  - unfold Project._gen_file_entry. rewrite count_char_app.
    change (count_char (Str.chr 10) Str.newline) with 1.
    induction tracked as [|p [|q rest] IH].
    + reflexivity.
    + simpl. rewrite printable_no_newline by apply file_entry_printable. reflexivity.
    + change (Str.join Str.newline (map (Project.file_entry toml) (p :: q :: rest)))
        with (Project.file_entry toml p +:+ Str.newline
              +:+ Str.join Str.newline (map (Project.file_entry toml) (q :: rest))).
      rewrite !count_char_app.
      rewrite printable_no_newline by apply file_entry_printable.
      change (count_char (Str.chr 10) Str.newline) with 1.
      simpl length in *. lia.
Qed.

(** ** Special inputs *)

(** Adding one of the manifest template files from outside the source
    root regenerates the manifest from the current tracked list and stores
    it as the text entry under the manifest name: the text stored is the
    selected template on the disk with [files_entry] replaced by the body
    of the current tracked list, so where the template has the placeholder
    the stored manifest lists every tracked path.  The tracked list and the
    file-backed entries are not touched. *)
Theorem add_template_file_stores_manifest self fs path s s' :
  Project.convert_path self path = None ->
  path = Project.toml_cfg self \/ path = Project.json_cfg self ->
  Project.add_file self fs path s = (Done tt, s') ->
  let toml := is_file fs (Project.toml_cfg self) in
  let mapping := [("files_entry", spec_manifest_body toml (Project.files s))] in
  Project.files s' = Project.files s
  /\ ZipBuilder.files (Project.zip s') = ZipBuilder.files (Project.zip s)
  /\ Project.pyscript_config s' = manifest_name self fs
  /\ exists tpl manifest,
       node_at fs (selected_template self fs) = File (Some tpl)
       /\ Template.substitute tpl mapping = Done manifest
       /\ Dict.get (Path.of_str (manifest_name self fs)) (ZipBuilder.texts (Project.zip s'))
          = Some manifest
       /\ forall pre post pre',
            tpl = pre +:+ "$files_entry" +:+ post ->
            no_id_head post ->
            Template.substitute pre mapping = Done pre' ->
            Done manifest
            = Template.emit (pre' +:+ spec_manifest_body toml (Project.files s))
                (Template.substitute post mapping).
Proof.
  intros Hc Hpath. unfold Project.add_file. rewrite Hc. unfold Project._handle_unknwon.
  assert (Hb : bool_decide (path = Project.toml_cfg self)
               || bool_decide (path = Project.json_cfg self) = true).
  { apply orb_true_iff. destruct Hpath as [H|H]; [left | right];
      apply bool_decide_eq_true; assumption. }
  rewrite Hb. unfold_py.
  destruct (Project._parse_pyscript_cfg self fs s) as [[m|e] s1] eqn:Hcfg; [|discriminate].
  destruct (parse_cfg_disk self fs s m s1 Hcfg) as (Hs1 & tpl & Hnode & Hsub).
  simpl.
  destruct (ZipBuilder.add_text m (Path.of_str (Project.pyscript_config s1)) (Project.zip s1))
    as [[[]|e] z1] eqn:Hput; [|discriminate].
  intros H. injection H as <-. simpl.
  destruct (add_text_done _ _ _ _ Hput) as (Hfiles & Hget & _).
  rewrite Hs1 in Hfiles, Hget |- *. simpl in *.
  repeat split; try assumption.
  exists tpl, m. repeat split; try assumption.
  intros pre post pre' -> Hpost Hpre. rewrite <- Hsub.
  apply (substitute_placeholder _ pre pre' "files_entry" _ post); try assumption; reflexivity.
Qed.

Lemma add_template_file_stores_manifest_witness :
  let s := snd (Project.add_file Sample.self Sample.fs_extra
                  (Sample.P "/proj/src/extra.py") Sample.started) in
  let s' := snd (Project.add_file Sample.self Sample.fs_extra
                   (Sample.P "/proj/config/pyscript.toml.template") s) in
  Project.files s' = Project.files s
  /\ Dict.get (Path.of_str "pyscript.toml") (ZipBuilder.texts (Project.zip s'))
     = Some ("[files]" +:+ Str.newline
             +:+ quoted "main.py" +:+ " = ''" +:+ Str.newline
             +:+ quoted "style.css" +:+ " = ''" +:+ Str.newline
             +:+ quoted "pyscript.toml" +:+ " = ''" +:+ Str.newline
             +:+ quoted "index.html" +:+ " = ''" +:+ Str.newline
             +:+ quoted "extra.py" +:+ " = ''").
Proof.
  intros s s'.
  destruct (add_template_file_stores_manifest Sample.self Sample.fs_extra
              (Sample.P "/proj/config/pyscript.toml.template") s s')
    as (Hfiles & _ & _ & tpl & manifest & Hnode & _ & Hget & Hbody).
  - reflexivity.
  - left. reflexivity.
  - vm_compute. reflexivity.
  - split; [exact Hfiles|].
    assert (Htpl : tpl = "[files]$files_entry").
    { assert (H : File (Some tpl) = File (Some "[files]$files_entry"))
        by (rewrite <- Hnode; reflexivity).
      injection H as ->. reflexivity. }
    specialize (Hbody "[files]" "" "[files]" Htpl I eq_refl).
    change (manifest_name Sample.self Sample.fs_extra) with "pyscript.toml" in Hget.
    rewrite Hget. f_equal.
    assert (Hd : Done manifest
                 = Done ("[files]" +:+ Str.newline
                         +:+ quoted "main.py" +:+ " = ''" +:+ Str.newline
                         +:+ quoted "style.css" +:+ " = ''" +:+ Str.newline
                         +:+ quoted "pyscript.toml" +:+ " = ''" +:+ Str.newline
                         +:+ quoted "index.html" +:+ " = ''" +:+ Str.newline
                         +:+ quoted "extra.py" +:+ " = ''")).
    { rewrite Hbody. vm_compute. reflexivity. }
    injection Hd as ->. reflexivity.
Defined.

(** ** The initial synchronization and the build *)

Lemma add_src_as_run self fs v s :
  Project.runtime_remote_cdn self = Some v ->
  truthy v = true ->
  Project.add_src self fs s = run self (map (AddFile fs) (regular_files self fs)) s.
Proof.
  intros Hv Ht. unfold Project.add_src, regular_files, run. rewrite Hv. unfold_py. simpl.
  rewrite Ht. simpl. generalize (rglob fs (Project.src_path self)) as l. intros l. revert s.
  induction l as [|p l IH]; intros s; [reflexivity|].
  simpl for_each at 1. unfold bind at 1.
  destruct (is_file fs p) eqn:Hp; simpl.
  - rewrite filter_cons_True by (rewrite Hp; exact I). simpl. unfold bind.
    destruct (Project.add_file self fs p s) as [[[]|e] s1]; [apply IH | reflexivity].
  - rewrite filter_cons_False by (rewrite Hp; exact id). apply IH.
Qed.

Lemma plain_adds self fs l :
  Forall (fun p => is_special self p = false) l ->
  Forall (plain_call self) (map (AddFile fs) l).
Proof.
  intros H. apply Forall_fmap. eapply Forall_impl; [exact H|]. intros p Hp. exact Hp.
Qed.

Lemma spec_adds_elem self fs l : forall acc d,
  d ∈ fold_left (spec_step self) (map (AddFile fs) l) acc
  <-> d ∈ acc \/ exists p, p ∈ l /\ Project.convert_path self p = Some d.
Proof.
  induction l as [|p l IH]; intros acc d; simpl.
  - split; [auto|]. intros [?|(p & Hp & _)]; [assumption | inversion Hp].
  - rewrite IH. destruct (Project.convert_path self p) as [dest|] eqn:Hc.
    + split.
      * intros [Hin|(q & Hq & Hd)]; [|right; exists q; split; [right|]; assumption].
        destruct (bool_decide (dest ∈ acc)); [left; assumption|].
        apply elem_of_app in Hin as [?|Hin]; [left; assumption|].
        apply list_elem_of_singleton in Hin. subst. right. exists p. split; [left | assumption].
      * intros [Hin|(q & Hq & Hd)].
        -- left. destruct (bool_decide (dest ∈ acc)); [assumption|].
           apply elem_of_app. left. assumption.
        -- apply elem_of_cons in Hq as [->|Hq]; [|right; eauto].
           left. rewrite Hc in Hd. injection Hd as ->.
           destruct (bool_decide (d ∈ acc)) eqn:Hb.
           ++ apply bool_decide_eq_true in Hb. assumption.
           ++ apply elem_of_app. right. left.
    + split.
      * intros [?|(q & Hq & Hd)]; [left; assumption|]. right. exists q. split; [right|]; assumption.
      * intros [?|(q & Hq & Hd)]; [left; assumption|].
        apply elem_of_cons in Hq as [->|Hq]; [congruence|]. right. eauto.
Qed.

(** After an initial synchronization that returns, on a source tree that
    holds none of the template files: the archive has no text entry, the
    tracked list is the key sequence of the file-backed entries, without
    duplicates, in the order the listing first reaches each destination,
    and it holds exactly the destinations of the regular files listed;
    directories are left out. *)
Theorem initial_sync_tracks_regular_files self fs v s :
  Project.runtime_remote_cdn self = Some v ->
  truthy v = true ->
  Forall (fun p => is_special self p = false) (regular_files self fs) ->
  Project.add_src self fs initial = (Done tt, s) ->
  NoDup (Project.files s)
  /\ ZipBuilder.texts (Project.zip s) = []
  /\ Project.files s = Dict.keys (ZipBuilder.files (Project.zip s))
  /\ Project.files s = spec_tracked self (map (AddFile fs) (regular_files self fs))
  /\ forall d, d ∈ Project.files s
       <-> exists p, p ∈ regular_files self fs /\ Project.convert_path self p = Some d.
Proof.
  intros Hv Ht Hplain Hrun. rewrite (add_src_as_run self fs v initial Hv Ht) in Hrun.
  destruct (run_plain self _ initial s (plain_adds self fs _ Hplain) initial_ok Hrun)
    as [(Htx & Hfl & Hnd) Hspec].
  repeat split; try assumption.
  - rewrite Hspec. intros Hin. apply spec_adds_elem in Hin as [Hin|?]; [inversion Hin | assumption].
  - rewrite Hspec. intros Hex. apply spec_adds_elem. right. assumption.
Qed.

Lemma initial_sync_tracks_regular_files_witness :
  let s := snd (Project.add_src Sample.self Sample.fs initial) in
  NoDup (Project.files s)
  /\ ZipBuilder.texts (Project.zip s) = []
  /\ Project.files s = Dict.keys (ZipBuilder.files (Project.zip s))
  /\ Project.files s
     = spec_tracked Sample.self (map (AddFile Sample.fs) (regular_files Sample.self Sample.fs))
  /\ forall d, d ∈ Project.files s
       <-> exists p, p ∈ regular_files Sample.self Sample.fs
                     /\ Project.convert_path Sample.self p = Some d.
Proof.
  apply (initial_sync_tracks_regular_files Sample.self Sample.fs (TomlBool true)).
  - reflexivity.
  - reflexivity.
  - vm_compute. repeat constructor.
  - vm_compute. reflexivity.
Defined.

Lemma set_absent {K V} `{EqDecision K} (k : K) (v : V) (d : list (K * V)) :
  Dict.mem k d = false -> Dict.set k v d = d ++ [(k, v)].
Proof.
  induction d as [|[k0 v0] d IH]; simpl; [reflexivity|].
  destruct (decide (k = k0)); [discriminate|]. intros Hm. rewrite IH by assumption. reflexivity.
Qed.

(** A returning [add_text] on a path with no text entry: the path has no
    file-backed entry either, and the text goes last. *)
Lemma add_text_fresh text dest z z' :
  Dict.mem dest (ZipBuilder.texts z) = false ->
  ZipBuilder.add_text text dest z = (Done tt, z') ->
  Dict.mem dest (ZipBuilder.files z) = false
  /\ z' = ZipBuilder.set_texts (ZipBuilder.texts z ++ [(dest, text)]) z.
Proof.
  intros Hm. unfold ZipBuilder.add_text. unfold_py.
  destruct (Dict.mem dest (ZipBuilder.files z)); simpl.
  - rewrite Hm. discriminate.
  - intros H. injection H as <-. rewrite set_absent by assumption. auto.
Qed.

Lemma parse_cfg_name self fs s m s1 :
  Project._parse_pyscript_cfg self fs s = (Done m, s1) ->
  Project.pyscript_config s1 = manifest_name self fs.
Proof.
  unfold Project._parse_pyscript_cfg, manifest_name, read_text.
  destruct (is_file fs (Project.toml_cfg self)).
  - unfold_py; simpl.
    destruct (node_at fs (Project.toml_cfg self)) as [| |[c|]|]; simpl; try discriminate.
    intros H. injection H as _ <-. reflexivity.
  - destruct (is_file fs (Project.json_cfg self)); [|discriminate].
    unfold_py; simpl.
    destruct (node_at fs (Project.json_cfg self)) as [| |[c|]|]; simpl; try discriminate.
    intros H. injection H as _ <-. reflexivity.
Qed.

Lemma manifest_name_not_index self fs :
  Path.of_str INDEX_LOC <> Path.of_str (manifest_name self fs).
Proof. unfold manifest_name. destruct (is_file fs _); discriminate. Qed.

(** A returning [add_file] either keeps the tracked list and the manifest
    name, or has regenerated the manifest on this disk. *)
Lemma add_file_config self fs path s s' :
  is_special self path = false ->
  Project.add_file self fs path s = (Done tt, s') ->
  (Project.files s' = Project.files s
   /\ Project.pyscript_config s' = Project.pyscript_config s)
  \/ Project.pyscript_config s' = manifest_name self fs.
Proof.
  intros Hsp. unfold Project.add_file.
  destruct (Project.convert_path self path) as [dest|] eqn:Hc.
  2:{ rewrite (handle_unknown_plain _ _ _ _ Hc Hsp). intros H. injection H as <-. auto. }
  unfold_py.
  destruct (ZipBuilder.has dest (Project.zip s)); simpl.
  - destruct (ZipBuilder.add_file fs path dest (Project.zip s)) as [r z'].
    intros H. injection H as _ <-. left. auto.
  - destruct (Project._parse_pyscript_cfg self fs _) as [[m|e] s1] eqn:Hcfg; simpl;
      [|discriminate].
    destruct (ZipBuilder.add_file fs path dest (Project.zip s1)) as [r z'].
    intros H. injection H as _ <-. right. simpl.
    apply (parse_cfg_name self fs _ m s1 Hcfg).
Qed.

Lemma run_adds_config self fs l : forall s s',
  Forall (fun p => is_special self p = false) l ->
  run self (map (AddFile fs) l) s = (Done tt, s') ->
  Project.files s = [] \/ Project.pyscript_config s = manifest_name self fs ->
  Project.files s' = [] \/ Project.pyscript_config s' = manifest_name self fs.
Proof.
  induction l as [|p l IH]; intros s s' Hplain Hrun Hs.
  - injection Hrun as <-. assumption.
  - apply Forall_cons in Hplain as [Hp Hplain].
    unfold run in Hrun. simpl in Hrun. unfold bind in Hrun.
    destruct (Project.add_file self fs p s) as [[[]|e] s1] eqn:Hadd; [|discriminate].
    apply (IH s1 s' Hplain Hrun).
    destruct (add_file_config self fs p s s1 Hp Hadd) as [[Hf Hcfg]|Hcfg]; [|auto].
    rewrite Hf, Hcfg. assumption.
Qed.

(** The build of a source tree that holds at least one file and none of
    the templates: after [add_src] and [add_templates] have returned, the
    paths of the archive, file-backed entries first and the two generated
    texts after them, are the tracked list, which has no duplicate; so
    [build_zip] writes one member per tracked path, in list order. *)
Theorem build_members_are_tracked_list self fs v s :
  Project.runtime_remote_cdn self = Some v ->
  truthy v = true ->
  Forall (fun p => is_special self p = false) (regular_files self fs) ->
  (exists p d, p ∈ regular_files self fs /\ Project.convert_path self p = Some d) ->
  main_sync self fs initial = (Done tt, s) ->
  NoDup (Project.files s)
  /\ Dict.keys (ZipBuilder.files (Project.zip s)) ++ Dict.keys (ZipBuilder.texts (Project.zip s))
     = Project.files s
  /\ Dict.keys (ZipBuilder.texts (Project.zip s))
     = [Path.of_str (manifest_name self fs); Path.of_str INDEX_LOC]
  /\ exists members,
       ZipBuilder.build_zip (Project.zip s) = (Done members, Project.zip s)
       /\ ZipBuilder.member_names members = map Path.str (Project.files s).
Proof.
  intros Hv Ht Hplain (p0 & d0 & Hp0 & Hd0). unfold main_sync. unfold bind at 1.
  destruct (Project.add_src self fs initial) as [[[]|e] s1] eqn:Hsrc; [|discriminate].
  rewrite (add_src_as_run self fs v initial Hv Ht) in Hsrc.
  destruct (run_plain self _ initial s1 (plain_adds self fs _ Hplain) initial_ok Hsrc)
    as [(Htx & Hfl & Hnd) Hspec].
  assert (Hcfg1 : Project.pyscript_config s1 = manifest_name self fs).
  { destruct (run_adds_config self fs _ initial s1 Hplain Hsrc) as [Hnil|?];
      [left; reflexivity | | assumption].
    exfalso. assert (Hin : d0 ∈ Project.files s1).
    { rewrite Hspec. apply spec_adds_elem. right. eauto. }
    rewrite Hnil in Hin. inversion Hin. }
  unfold Project.add_templates. unfold_py. simpl. rewrite Hcfg1.
  set (s0 := Project.set_files _ s1).
  destruct (Project._parse_pyscript_cfg self fs s0) as [[m|e] s2] eqn:Hcfg; [|discriminate].
  pose proof (parse_cfg_name self fs s0 m s2 Hcfg) as Hname.
  destruct (parse_cfg_done self fs s0 m s2 Hcfg) as (Hs2 & _).
  assert (Hz2 : Project.zip s2 = Project.zip s1) by (rewrite Hs2; reflexivity).
  assert (Hf2 : Project.files s2 = Project.files s0) by (rewrite Hs2; reflexivity).
  rewrite Hname.
  destruct (ZipBuilder.add_text m (Path.of_str (manifest_name self fs)) (Project.zip s2))
    as [[[]|e] z1] eqn:Hput1; simpl; [|discriminate].
  assert (Hmt : Dict.mem (Path.of_str (manifest_name self fs))
                  (ZipBuilder.texts (Project.zip s2)) = false)
    by (rewrite Hz2, Htx; reflexivity).
  destruct (add_text_fresh _ _ _ _ Hmt Hput1) as [Hfresh1 Hz1].
  rewrite Hz2, Htx in Hz1. simpl in Hz1.
  pose proof (parse_index_frame self fs (Project.set_zip z1 s2)) as Hidx.
  destruct (Project._parse_index_html self fs (Project.set_zip z1 s2)) as [[page|e] s3];
    simpl in *; [|discriminate]. subst s3. simpl.
  destruct (ZipBuilder.add_text page (Path.of_str INDEX_LOC) z1) as [[[]|e] z2] eqn:Hput2;
    simpl; [|discriminate].
  assert (Hmi : Dict.mem (Path.of_str INDEX_LOC) (ZipBuilder.texts z1) = false).
  { rewrite Hz1. simpl.
    destruct (decide (Path.of_str INDEX_LOC = Path.of_str (manifest_name self fs))) as [Heq|_];
      [exfalso; exact (manifest_name_not_index self fs Heq) | reflexivity]. }
  destruct (add_text_fresh _ _ _ _ Hmi Hput2) as [Hfresh2 Hz2'].
  intros H. injection H as <-. simpl. rewrite Hf2.
  assert (Hkeys : Dict.keys (ZipBuilder.texts z2)
                  = [Path.of_str (manifest_name self fs); Path.of_str INDEX_LOC]).
  { rewrite Hz2', Hz1. reflexivity. }
  assert (Hfiles : ZipBuilder.files z2 = ZipBuilder.files (Project.zip s1)).
  { rewrite Hz2', Hz1. reflexivity. }
  assert (Hall : Dict.keys (ZipBuilder.files z2) ++ Dict.keys (ZipBuilder.texts z2)
                 = Project.files s0).
  { rewrite Hkeys, Hfiles, <- Hfl. reflexivity. }
  split; [|split; [assumption | split; [assumption|]]].
  - subst s0. simpl. apply NoDup_app. split; [assumption|]. split.
    + intros x Hx Hx'. rewrite Hfl in Hx. apply mem_keys in Hx.
      apply elem_of_cons in Hx' as [->|Hx'].
      * rewrite Hz2 in Hfresh1. congruence.
      * apply list_elem_of_singleton in Hx'. subst x.
        rewrite Hz1 in Hfresh2. simpl in Hfresh2. congruence.
    + apply NoDup_cons. split; [|apply NoDup_singleton].
      intros Hin. apply list_elem_of_singleton in Hin.
      exact (manifest_name_not_index self fs (eq_sym Hin)).
  - destruct (build_zip_members z2) as (members & Hb & Hn).
    exists members. split; [assumption|]. rewrite Hn, Hall. reflexivity.
Qed.

Lemma build_members_are_tracked_list_witness :
  NoDup (Project.files Sample.started)
  /\ Dict.keys (ZipBuilder.files (Project.zip Sample.started))
       ++ Dict.keys (ZipBuilder.texts (Project.zip Sample.started))
     = Project.files Sample.started
  /\ Dict.keys (ZipBuilder.texts (Project.zip Sample.started))
     = [Path.of_str (manifest_name Sample.self Sample.fs); Path.of_str INDEX_LOC]
  /\ exists members,
       ZipBuilder.build_zip (Project.zip Sample.started)
       = (Done members, Project.zip Sample.started)
       /\ ZipBuilder.member_names members = map Path.str (Project.files Sample.started).
Proof.
  apply (build_members_are_tracked_list Sample.self Sample.fs (TomlBool true)).
  - reflexivity.
  - reflexivity.
  - vm_compute. repeat constructor.
  - exists (Sample.P "/proj/src/main.py"), (Sample.P "main.py").
    split; [vm_compute; left | reflexivity].
  - vm_compute. reflexivity.
Defined.

(** ** Serialization, entry by entry *)

Lemma write_all_contents z paths : forall zipped,
  Forall (fun p => ZipBuilder.has p z = true) paths ->
  ZipBuilder.write_all paths zipped z
  = (Done (zipped ++ map (fun p => (Path.str p, content_of z p)) paths), z).
Proof.
  induction paths as [|p paths IH]; intros zipped Hall; simpl.
  - rewrite app_nil_r. reflexivity.
  - apply Forall_cons in Hall as [Hp Hall].
    destruct (get_of_has p z Hp) as [data Hget].
    unfold bind. unfold content_of. rewrite Hget. simpl.
    rewrite (IH _ Hall), <- app_assoc. reflexivity.
Qed.

(** [build_zip] never raises and leaves the archive as it is.  It writes
    the file-backed entries in insertion order, then the text entries in
    insertion order, each under the string form of its path and with the
    content [get] answers for that path. *)
Theorem build_zip_writes_every_entry z :
  ZipBuilder.build_zip z
  = (Done (map (fun p => (Path.str p, content_of z p))
             (Dict.keys (ZipBuilder.files z) ++ Dict.keys (ZipBuilder.texts z))), z).
Proof.
  unfold ZipBuilder.build_zip. unfold_py.
  rewrite write_all_contents.
  2:{ apply Forall_forall. intros p Hp. apply mem_keys in Hp.
      unfold ZipBuilder.has. rewrite Hp. reflexivity. }
  rewrite write_all_contents.
  2:{ apply Forall_forall. intros p Hp. apply mem_keys in Hp.
      unfold ZipBuilder.has. rewrite Hp. apply orb_true_r. }
  rewrite map_app. reflexivity.
Qed.

(** ** A source file named like a generated artifact *)

(** When the archive has no text entry yet and the source tree has put a
    file-backed entry under [index.html] or under the manifest name,
    [add_templates] cannot return: it raises, and by then it has already
    extended the tracked list. *)
Theorem add_templates_rejects_namesake self fs s :
  ZipBuilder.texts (Project.zip s) = [] ->
  Dict.mem (Path.of_str INDEX_LOC) (ZipBuilder.files (Project.zip s)) = true
  \/ Dict.mem (Path.of_str (manifest_name self fs)) (ZipBuilder.files (Project.zip s)) = true ->
  exists e s',
    Project.add_templates self fs s = (Raised e, s')
    /\ Project.files s'
       = Project.files s ++ [Path.of_str (Project.pyscript_config s); Path.of_str INDEX_LOC].
Proof.
  intros Htx Hclash. unfold Project.add_templates. unfold_py. simpl.
  set (s0 := Project.set_files _ s).
  pose proof (parse_cfg_frame self fs s0) as [Hz2 Hf2].
  destruct (Project._parse_pyscript_cfg self fs s0) as [[m|e] s2] eqn:Hcfg; simpl in *.
  2:{ exists e, s2. split; [reflexivity | assumption]. }
  pose proof (parse_cfg_name self fs s0 m s2 Hcfg) as Hname. rewrite Hname.
  assert (Hmt : Dict.mem (Path.of_str (manifest_name self fs))
                  (ZipBuilder.texts (Project.zip s2)) = false)
    by (rewrite Hz2, Htx; reflexivity).
  destruct (ZipBuilder.add_text m (Path.of_str (manifest_name self fs)) (Project.zip s2))
    as [[[]|e] z1] eqn:Hput1; simpl.
  2:{ exists e. eexists. split; [reflexivity | assumption]. }
  destruct (add_text_fresh _ _ _ _ Hmt Hput1) as [Hfresh1 Hz1].
  rewrite Hz2, Htx in Hz1. simpl in Hz1.
  destruct Hclash as [Hclash|Hclash]; [|rewrite Hz2 in Hfresh1; congruence].
  pose proof (parse_index_frame self fs (Project.set_zip z1 s2)) as Hidx.
  destruct (Project._parse_index_html self fs (Project.set_zip z1 s2)) as [[page|e] s3];
    simpl in *; subst s3.
  2:{ exists e. eexists. split; [reflexivity | assumption]. }
  simpl.
  assert (Hraise : ZipBuilder.add_text page (Path.of_str INDEX_LOC) z1
                   = (Raised (KeyError (Path.str (Path.of_str INDEX_LOC))), z1)).
  { unfold ZipBuilder.add_text. unfold_py. rewrite Hz1. simpl. rewrite Hclash. simpl.
    destruct (decide (Path.of_str INDEX_LOC = Path.of_str (manifest_name self fs))) as [Heq|_];
      [exfalso; exact (manifest_name_not_index self fs Heq) | reflexivity]. }
  rewrite Hraise. eexists. eexists. split; [reflexivity | assumption].
Qed.

Lemma add_templates_rejects_namesake_witness :
  exists e s',
    Project.add_templates Sample.self Sample.fs_clash
      (snd (Project.add_src Sample.self Sample.fs_clash initial)) = (Raised e, s')
    /\ Project.files s'
       = Project.files (snd (Project.add_src Sample.self Sample.fs_clash initial))
         ++ [Path.of_str
               (Project.pyscript_config (snd (Project.add_src Sample.self Sample.fs_clash initial)));
             Path.of_str INDEX_LOC].
Proof.
  apply (add_templates_rejects_namesake Sample.self Sample.fs_clash
           (snd (Project.add_src Sample.self Sample.fs_clash initial))).
  - reflexivity.
  - left. reflexivity.
Defined.

(** ** Requests *)

Section handler_facts.
Variable guess_file_type : string -> option string.

Lemma serve_of_has prj path send_content :
  Project.has (Path.of_str path) prj = true ->
  exists content,
    Project.get (Path.of_str path) prj = (Done content, prj)
    /\ ProjectServerHandler.serve guess_file_type prj path send_content
       = Done (ProjectServerHandler.Sent ProjectServerHandler.OK
                 [("Content-type", ProjectServerHandler.guess_mimetype guess_file_type path);
                  ("Content-Length", pretty (String.length content))]
                 (if send_content then Str.encode_utf8 content else [])).
Proof.
  intros Hhas. unfold Project.has in Hhas.
  destruct (get_of_has _ _ Hhas) as [content Hget].
  exists content. unfold ProjectServerHandler.serve, Project.get. unfold_py.
  rewrite Hget. simpl. split; [|reflexivity].
  destruct prj as [z f c]. reflexivity.
Qed.

Lemma first_index_some prj path exts pth :
  ProjectServerHandler.first_index prj path exts = Some pth ->
  Project.has (Path.of_str pth) prj = true.
Proof.
  induction exts as [|ext exts IH]; simpl; [discriminate|].
  destruct (Project.has (Path.of_str (Posix.join path ext)) prj) eqn:Hh; [|exact IH].
  intros H. injection H as <-. assumption.
Qed.

Lemma first_index_none prj path exts :
  ProjectServerHandler.first_index prj path exts = None
  <-> Forall (fun ext => Project.has (Path.of_str (Posix.join path ext)) prj = false) exts.
Proof.
  induction exts as [|ext exts IH]; simpl; [split; [constructor | reflexivity]|].
  destruct (Project.has (Path.of_str (Posix.join path ext)) prj) eqn:Hh.
  - split; [discriminate|]. intros H. apply Forall_cons in H as [H _]. congruence.
  - rewrite IH. split; [intros H; constructor; assumption|].
    intros H. apply Forall_cons in H as [_ H]. assumption.
Qed.

(** With a project attached the handler never raises.  It answers
    [send_error(404)] exactly when the archive has neither the normalized
    path nor that path joined with [index.html] or [index.htm]; in every
    other case it sends status 200. *)
Theorem do_get_answers prj request_path send_content :
  let path := ProjectServerHandler.parse_path request_path in
  let missing :=
    Project.has (Path.of_str path) prj = false
    /\ Forall (fun ext => Project.has (Path.of_str (Posix.join path ext)) prj = false)
         ProjectServerHandler.INDEX_PAGES in
  exists r,
    ProjectServerHandler._do_get guess_file_type (Some prj) request_path send_content = Done r
    /\ (missing ->
        r = ProjectServerHandler.SendError ProjectServerHandler.NOT_FOUND "File not found.")
    /\ (~ missing ->
        exists headers body, r = ProjectServerHandler.Sent ProjectServerHandler.OK headers body).
Proof.
  intros path missing. unfold ProjectServerHandler._do_get. fold path.
  destruct (Project.has (Path.of_str path) prj) eqn:Hh; cbn [negb].
  - destruct (serve_of_has prj path send_content Hh) as (content & _ & ->).
    eexists. split; [reflexivity|]. split.
    + intros [Hm _]. congruence.
    + intros _. eauto.
  - destruct (ProjectServerHandler.first_index prj path ProjectServerHandler.INDEX_PAGES)
      as [pth|] eqn:Hidx.
    + pose proof (first_index_some _ _ _ _ Hidx) as Hp.
      destruct (serve_of_has prj pth send_content Hp) as (content & _ & ->).
      eexists. split; [reflexivity|]. split.
      * intros [_ Hall]. apply first_index_none in Hall. congruence.
      * intros _. eauto.
    + eexists. split; [reflexivity|]. split; [reflexivity|].
      intros Hnot. exfalso. apply Hnot. split; [first [assumption | reflexivity]|].
      apply first_index_none. assumption.
Qed.

(** A HEAD request is answered as the GET request for the same path, with
    the same status and headers (or the same [send_error] call), and with
    no body. *)
Theorem head_is_get_without_body project request_path :
  ProjectServerHandler.do_HEAD guess_file_type project request_path
  = match ProjectServerHandler.do_GET guess_file_type project request_path with
    | Done r => Done (without_body r)
    | Raised e => Raised e
    end.
Proof.
  unfold ProjectServerHandler.do_HEAD, ProjectServerHandler.do_GET,
    ProjectServerHandler._do_get.
  assert (Hserve : forall prj path,
    ProjectServerHandler.serve guess_file_type prj path false
    = match ProjectServerHandler.serve guess_file_type prj path true with
      | Done r => Done (without_body r)
      | Raised e => Raised e
      end).
  { intros prj path. unfold ProjectServerHandler.serve.
    destruct (fst (Project.get (Path.of_str path) prj)); reflexivity. }
  destruct project as [prj|]; [|reflexivity].
  destruct (negb _); [|apply Hserve].
  destruct (ProjectServerHandler.first_index _ _ _); [apply Hserve | reflexivity].
Qed.



End handler_facts.


(** ** The watcher *)

Lemma run_app self xs ys s :
  run self (xs ++ ys) s
  = match run self xs s with
    | (Done _, s') => run self ys s'
    | (Raised e, s') => (Raised e, s')
    end.
Proof.
  unfold run. revert s. induction xs as [|x xs IH]; intros s; simpl; [reflexivity|].
  unfold bind. destruct (do_call self x s) as [[[]|e] s1]; [apply IH | reflexivity].
Qed.

Lemma dispatch_as_run self fs e s :
  ProjectUpdater.dispatch self fs e s = run self (calls_of_event fs e) s.
Proof.
  unfold run. destruct e; simpl; unfold bind, ret; try reflexivity.
  - destruct (Project.add_file self fs src_path s) as [[[]|e] s1]; reflexivity.
  - destruct (Project.add_file self fs src_path s) as [[[]|e] s1]; reflexivity.
  - destruct (Project.del_file self fs src_path s) as [[[]|e] s1]; reflexivity.
  - destruct (Project.del_file self fs src_path s) as [[[]|e] s1]; [|reflexivity].
    destruct (Project.add_file self fs dest_path s1) as [[[]|e] s2]; reflexivity.
Qed.

Lemma handle_events_as_run self events : forall s,
  handle_events self events s = run self (calls_of_events events) s.
Proof.
  unfold handle_events, calls_of_events.
  induction events as [|[fs e] events IH]; intros s; [reflexivity|].
  simpl. rewrite run_app. unfold bind. simpl. rewrite dispatch_as_run.
  destruct (run self (calls_of_event fs e) s) as [[[]|err] s1]; [apply IH | reflexivity].
Qed.

Lemma list_remove_filter x l :
  NoDup l -> x ∈ l -> Project.list_remove x l = Some (filter (fun y => y <> x) l).
Proof.
  induction l as [|y l IH]; intros Hnd Hin; [inversion Hin|].
  apply NoDup_cons in Hnd as [Hnot Hnd]. simpl.
  destruct (decide (y = x)) as [->|Hne].
  - rewrite filter_cons_False by (intros Hk; apply Hk; reflexivity).
    rewrite filter_ne_absent by assumption. reflexivity.
  - apply elem_of_cons in Hin as [->|Hin]; [contradiction|].
    rewrite (IH Hnd Hin), filter_cons_True by assumption. reflexivity.
Qed.

Lemma add_file_in_step self fs path s s' :
  in_step s ->
  clear_of self (ZipBuilder.texts (Project.zip s)) (AddFile fs path) ->
  Project.add_file self fs path s = (Done tt, s') ->
  in_step s'
  /\ ZipBuilder.texts (Project.zip s') = ZipBuilder.texts (Project.zip s)
  /\ Project.files s' = spec_step self (Project.files s) (AddFile fs path).
Proof.
  intros (Hnd & Huk & Hiff) (Hsp & Hpt & Hd) Hrun. simpl.
  destruct (Project.convert_path self path) as [dest|] eqn:Hc.
  2:{ unfold Project.add_file in Hrun. rewrite Hc in Hrun.
      rewrite (handle_unknown_plain _ _ _ _ Hc Hsp) in Hrun. injection Hrun as <-.
      repeat split; try assumption; apply Hiff. }
  destruct (add_file_done self fs path dest s s' Hc Hrun) as (data & Hnode & Hf & Hz & _).
  assert (Hz' : Project.zip s'
                = ZipBuilder.set_files
                    (Dict.set dest {| ZipBuilder.content := data; ZipBuilder.path := path |}
                       (ZipBuilder.files (Project.zip s))) (Project.zip s)).
  { rewrite Hz. unfold ZipBuilder.add_file, read_text. unfold_py.
    rewrite Hpt, Hnode. reflexivity. }
  assert (Hhas : forall d, Project.has d s' = bool_decide (d = dest) || Project.has d s).
  { intros d. unfold Project.has, ZipBuilder.has. rewrite Hz'. simpl.
    rewrite mem_after_set, orb_assoc. reflexivity. }
  split; [|split; [rewrite Hz'; reflexivity|]].
  2:{ rewrite Hf. destruct (Project.has dest s) eqn:Hh.
      - rewrite bool_decide_eq_true_2 by (apply Hiff; assumption). reflexivity.
      - rewrite bool_decide_eq_false_2; [reflexivity|].
        intros Hin. apply Hiff in Hin. congruence. }
  split; [|split].
  - rewrite Hf. destruct (Project.has dest s) eqn:Hh; [assumption|].
    apply NoDup_app. repeat split; [assumption | | apply NoDup_singleton].
    intros x Hx Hx'. apply list_elem_of_singleton in Hx'. subst.
    apply Hiff in Hx. congruence.
  - rewrite Hz'. simpl. apply unique_keys_set. assumption.
  - intros d. rewrite Hhas, Hf, orb_true_iff, bool_decide_eq_true.
    destruct (Project.has dest s) eqn:Hh.
    + rewrite Hiff. split; [auto|]. intros [->|?]; assumption.
    + rewrite elem_of_app, list_elem_of_singleton, Hiff. tauto.
Qed.

Lemma del_file_in_step self fs path s s' :
  in_step s ->
  clear_of self (ZipBuilder.texts (Project.zip s)) (RemoveFile fs path) ->
  Project.del_file self fs path s = (Done tt, s') ->
  in_step s'
  /\ ZipBuilder.texts (Project.zip s') = ZipBuilder.texts (Project.zip s)
  /\ Project.files s' = spec_step self (Project.files s) (RemoveFile fs path).
Proof.
  intros (Hnd & Huk & Hiff) Hd Hrun. simpl in Hd. unfold Project.del_file in Hrun. simpl.
  destruct (Project.convert_path self path) as [dest|] eqn:Hc.
  2:{ injection Hrun as <-. repeat split; try assumption; apply Hiff. }
  unfold_py.
  destruct (ZipBuilder.has dest (Project.zip s)) eqn:Hh; simpl in Hrun.
  2:{ injection Hrun as <-.
      assert (Hnot : dest ∉ Project.files s).
      { intros Hin. apply Hiff in Hin. unfold Project.has in Hin. congruence. }
      rewrite filter_ne_absent by assumption.
      repeat split; try assumption; apply Hiff. }
  assert (Hin : dest ∈ Project.files s) by (apply Hiff; assumption).
  rewrite (list_remove_filter dest _ Hnd Hin) in Hrun.
  assert (Hmf : Dict.mem dest (ZipBuilder.files (Project.zip s)) = true).
  { unfold ZipBuilder.has in Hh. rewrite Hd, orb_false_r in Hh. assumption. }
  unfold ZipBuilder.del_entry in Hrun. unfold_py. simpl in Hrun.
  rewrite Hmf in Hrun. simpl in Hrun. rewrite Hd in Hrun. simpl in Hrun.
  match type of Hrun with context [Project._parse_pyscript_cfg self fs ?st] =>
    pose proof (parse_cfg_frame self fs st) as [Hz Hf];
    destruct (Project._parse_pyscript_cfg self fs st) as [[m|e] s1] end;
    simpl in *; [|discriminate].
  injection Hrun as <-.
  assert (Hhas : forall d, Project.has d s1
                   = if decide (d = dest) then false else Project.has d s).
  { intros d. unfold Project.has, ZipBuilder.has. rewrite Hz. simpl.
    destruct (decide (d = dest)) as [->|Hne].
    - rewrite mem_del_same by assumption. rewrite Hd. reflexivity.
    - rewrite mem_del_ne by assumption. reflexivity. }
  split; [|split; [rewrite Hz; reflexivity | assumption]].
  split; [|split].
  - rewrite Hf. apply NoDup_filter. assumption.
  - rewrite Hz. simpl. apply unique_keys_del. assumption.
  - intros d. rewrite Hhas, Hf, list_elem_of_filter, Hiff.
    destruct (decide (d = dest)); [split; [tauto | discriminate] | tauto].
Qed.

Lemma run_in_step self calls : forall s s',
  in_step s ->
  Forall (clear_of self (ZipBuilder.texts (Project.zip s))) calls ->
  run self calls s = (Done tt, s') ->
  in_step s'
  /\ ZipBuilder.texts (Project.zip s') = ZipBuilder.texts (Project.zip s)
  /\ Project.files s' = fold_left (spec_step self) calls (Project.files s).
Proof.
  induction calls as [|c calls IH]; intros s s' Hok Hclear Hrun.
  - injection Hrun as <-. auto.
  - apply Forall_cons in Hclear as [Hc Hclear].
    unfold run in Hrun. simpl in Hrun. unfold bind in Hrun.
    destruct (do_call self c s) as [[[]|e] s1] eqn:Hstep; [|discriminate].
    assert (H1 : in_step s1
                 /\ ZipBuilder.texts (Project.zip s1) = ZipBuilder.texts (Project.zip s)
                 /\ Project.files s1 = spec_step self (Project.files s) c).
    { destruct c as [fs path|fs path]; simpl in Hstep.
      - eapply add_file_in_step; eassumption.
      - eapply del_file_in_step; eassumption. }
    destruct H1 as (Hok1 & Htx1 & Hf1). rewrite <- Htx1 in Hclear.
    destruct (IH s1 s' Hok1 Hclear Hrun) as (Hok' & Htx' & Hf').
    split; [assumption|]. split; [congruence|]. simpl. rewrite <- Hf1. assumption.
Qed.

(** While the project is served: if the tracked list is duplicate-free
    and holds exactly the paths of the archive, then after any events that
    are handled without error and stay clear of the generated text entries
    (no template file, no path or destination equal to a text entry's path)
    this is still so, the text entries are untouched, and the tracked list
    is the one the events call for: a created or modified file appends its
    destination unless it is listed, a deleted file takes its destination
    out, a moved file does the second and then the first, and events on
    directories change nothing. *)
Theorem watcher_keeps_list_in_step self events s s' :
  in_step s ->
  Forall (clear_of self (ZipBuilder.texts (Project.zip s))) (calls_of_events events) ->
  handle_events self events s = (Done tt, s') ->
  in_step s'
  /\ ZipBuilder.texts (Project.zip s') = ZipBuilder.texts (Project.zip s)
  /\ Project.files s'
     = fold_left (spec_step self) (calls_of_events events) (Project.files s).
Proof.
  intros Hok Hclear Hrun. rewrite handle_events_as_run in Hrun.
  apply (run_in_step self _ s s' Hok Hclear Hrun).
Qed.

Lemma in_step_of_keys s :
  NoDup (Project.files s) ->
  unique_keys (ZipBuilder.files (Project.zip s)) ->
  Dict.keys (ZipBuilder.files (Project.zip s)) ++ Dict.keys (ZipBuilder.texts (Project.zip s))
  = Project.files s ->
  in_step s.
Proof.
  intros Hnd Huk Hkeys. repeat split; try assumption.
  - rewrite <- Hkeys. intros Hin. unfold Project.has, ZipBuilder.has.
    apply orb_true_iff. apply elem_of_app in Hin as [Hin|Hin]; [left | right];
      apply mem_keys; assumption.
  - rewrite <- Hkeys. unfold Project.has, ZipBuilder.has. intros Hh.
    apply orb_true_iff in Hh. apply elem_of_app.
    destruct Hh as [Hh|Hh]; [left | right]; apply mem_keys; assumption.
Qed.

Lemma started_in_step : in_step Sample.started.
Proof.
  apply in_step_of_keys; [| |reflexivity];
    vm_compute; repeat constructor; rewrite ?list_elem_of_In; simpl; intuition discriminate.
Qed.

Lemma watcher_keeps_list_in_step_witness :
  let s' := snd (handle_events Sample.self sample_events Sample.started) in
  in_step s'
  /\ ZipBuilder.texts (Project.zip s') = ZipBuilder.texts (Project.zip Sample.started)
  /\ Project.files s' = map Sample.P ["style.css"; "pyscript.toml"; "index.html"; "app.py"].
Proof.
  intros s'.
  destruct (watcher_keeps_list_in_step Sample.self sample_events Sample.started s')
    as (Hok & Htx & Hfiles).
  - exact started_in_step.
  - repeat constructor.
  - vm_compute. reflexivity.
  - split; [exact Hok|]. split; [exact Htx|]. rewrite Hfiles. vm_compute. reflexivity.
Defined.

(** ** The entry page *)

(** Regenerating the entry page never changes the project, whether it
    returns or raises and whatever the disk and the configuration hold; and
    the template is read before any configuration key: when the template
    file is missing the call raises [FileNotFoundError] for it, also when
    configuration keys are absent. *)
Theorem index_page_reads_only self fs s :
  snd (Project._parse_index_html self fs s) = s
  /\ (node_at fs (Project.index_template self) = Missing ->
      fst (Project._parse_index_html self fs s)
      = Raised (FileNotFoundError (Path.str (Project.index_template self)))).
Proof.
  split; [apply parse_index_frame|].
  intros Hn. unfold Project._parse_index_html, read_text. rewrite Hn. reflexivity.
Qed.

Lemma index_page_reads_only_witness :
  Project._parse_index_html (Sample.env None) Sample.fs_bare Sample.started
  = (Raised (FileNotFoundError "/proj/config/index.html.template"), Sample.started).
Proof.
  destruct (index_page_reads_only (Sample.env None) Sample.fs_bare Sample.started)
    as [Hs Hmissing].
  rewrite (surjective_pairing
             (Project._parse_index_html (Sample.env None) Sample.fs_bare Sample.started)).
  rewrite Hs, Hmissing; reflexivity.
Defined.

(** Where the entry-page template has the placeholder [$cdn], the page
    has the release URL of the configured runtime version:
    [https://pyscript.net/releases/] followed by the version. *)
Theorem index_page_cdn_url self fs s version script_type main_script pre post pre' :
  Project.runtime_pyscript self = Some version ->
  Project.runtime_script_type self = Some script_type ->
  Project.project_main self = Some main_script ->
  node_at fs (Project.index_template self) = File (Some (pre +:+ "$cdn" +:+ post)) ->
  no_id_head post ->
  let mapping :=
    Project.index_mapping ("https://pyscript.net/releases/" +:+ toml_str version)
      (toml_str script_type) (toml_str main_script) (Project.pyscript_config s) in
  Template.substitute pre mapping = Done pre' ->
  fst (Project._parse_index_html self fs s)
  = Template.emit (pre' +:+ "https://pyscript.net/releases/" +:+ toml_str version)
      (Template.substitute post mapping).
Proof.
  intros Hv Hs Hm Hn Hpost mapping Hpre.
  rewrite (parse_index_value self fs s _ version script_type main_script Hn Hv Hs Hm).
  fold mapping.
  apply (substitute_placeholder mapping pre pre' "cdn" _ post); try assumption; reflexivity.
Qed.

Lemma index_page_cdn_url_witness :
  fst (Project._parse_index_html Sample.self Sample.fs Sample.started)
  = Done ("<script src='https://pyscript.net/releases/2024.1.1/core.js'></script>"
          +:+ "<script type='py' src='main.py' config='pyscript.toml'></script>").
Proof.
  rewrite (index_page_cdn_url Sample.self Sample.fs Sample.started
             (TomlStr "2024.1.1") (TomlStr "py") (TomlStr "main.py")
             "<script src='"
             "/core.js'></script><script type='$script_type' src='$main_script' config='$pyscript_config'$extra_script_params></script>"
             "<script src='");
    reflexivity.
Defined.

(** ** Directory requests *)

(** A request whose normalized path the archive does not have, while it
    has that path joined with [index.html], is answered with the content
    of that entry; [index.htm] is not looked at. *)
Theorem directory_request_serves_index guess_file_type prj request_path content :
  let path := ProjectServerHandler.parse_path request_path in
  let served := Posix.join path "index.html" in
  Project.has (Path.of_str path) prj = false ->
  Project.get (Path.of_str served) prj = (Done content, prj) ->
  ProjectServerHandler.do_GET guess_file_type (Some prj) request_path
  = Done (ProjectServerHandler.Sent ProjectServerHandler.OK
            [("Content-type", ProjectServerHandler.guess_mimetype guess_file_type served);
             ("Content-Length", pretty (String.length content))]
            (Str.encode_utf8 content)).
Proof.
  intros path served Hno Hget.
  unfold ProjectServerHandler.do_GET, ProjectServerHandler._do_get. fold path.
  rewrite Hno. cbn [negb].
  assert (Hhas : Project.has (Path.of_str served) prj = true).
  { unfold Project.has. revert Hget. unfold Project.get. unfold_py.
    destruct (ZipBuilder.get (Path.of_str served) (Project.zip prj)) as [r z'] eqn:Hg.
    intros H. injection H as -> _.
    apply (get_returns_has _ _ content z' Hg). }
  unfold ProjectServerHandler.INDEX_PAGES. cbn [ProjectServerHandler.first_index].
  fold served. rewrite Hhas.
  unfold ProjectServerHandler.serve. rewrite Hget. reflexivity.
Qed.

Lemma directory_request_serves_index_witness :
  ProjectServerHandler.do_GET Sample.guess_file_type (Some Sample.started) "/"
  = Done (ProjectServerHandler.Sent ProjectServerHandler.OK
            [("Content-type", "text/html;charset=utf-8"); ("Content-Length", "134")]
            (Str.encode_utf8 (content_of (Project.zip Sample.started) (Sample.P "index.html")))).
Proof.
  apply (directory_request_serves_index Sample.guess_file_type Sample.started "/"
           (content_of (Project.zip Sample.started) (Sample.P "index.html")));
    vm_compute; reflexivity.
Defined.
